(** * postgresql_vacuum: the statement and skip-period logic of [Vacuum.do]

    A shallow embedding of
    [lib/ansible/modules/database/postgresql/postgresql_vacuum.py]:
    [transform_tables_representation], [Vacuum.__init__],
    [Vacuum.get_user_tables_stat], [Vacuum.__check_table], [Vacuum.do] and
    [main], followed by the properties of the maintenance decision engine.

    Conventions of the embedding.
    - A Python exception or a call of [module.fail_json] ends the run; both
      are the [Exn] case of the result type [Res].
    - The object state that [do] mutates ([self.changed],
      [self.executed_queries]) and the sequence of requests sent to the
      database are threaded through the monad [M].  The object is the record
      [VacuumObject]; its methods are in the module [Vacuum].
    - A Python condition [if x:] tests truthiness: [None], [0], [False], the
      empty string and the empty list are false.
    - The module is read under Python 3.  A [str] is a sequence of code
      points; the characters of a [string] here are the code points below
      256.
    - A [datetime] is its distance from [datetime(1970,1,1)] in
      microseconds.  A Python [float] is an IEEE 754 binary64 number, with
      the operations of [SpecFloat]: [total_seconds()], the conversion of
      [skip_period] to a float (which can raise [OverflowError]), the
      subtraction and the comparisons round and compare as Python does.
    - [datetime.utcnow()] is read once for every row the filter looks at:
      [now] is a clock, [now i] being what the call returns while row
      number [i] of the snapshot is processed. *)

From Stdlib Require Import ZArith List String Ascii Bool Lia SpecFloat.
Import ListNotations.

Local Open Scope string_scope.
Local Open Scope Z_scope.

(** ** Python strings *)

Module Py.

(** The double quote character and the empty string. *)
Definition dquote : ascii := ascii_of_nat 34.
Definition empty : string := EmptyString.

Definition is_empty (s : string) : bool :=
  match s with EmptyString => true | String _ _ => false end.

(** [sep.join(l)] *)
Definition join (sep : string) (l : list string) : string :=
  String.concat sep l.

(** [c in s] for a one-character [c] *)
Fixpoint contains (c : ascii) (s : string) : bool :=
  match s with
  | EmptyString => false
  | String a r => Ascii.eqb a c || contains c r
  end.

(** [s.split(c)]: the pieces between the occurrences of [c]; never empty. *)
Fixpoint split (c : ascii) (s : string) : list string :=
  match s with
  | EmptyString => [empty]
  | String a r =>
      if Ascii.eqb a c then empty :: split c r
      else match split c r with
           | h :: t => String a h :: t
           | [] => [String a empty]
           end
  end.

Fixpoint lstrip (p : ascii -> bool) (s : string) : string :=
  match s with
  | EmptyString => empty
  | String a r => if p a then lstrip p r else s
  end.

Fixpoint rstrip (p : ascii -> bool) (s : string) : string :=
  match s with
  | EmptyString => empty
  | String a r =>
      let r' := rstrip p r in
      if p a && is_empty r' then empty else String a r'
  end.

(** [s.strip(chars)], [chars] given as a predicate *)
Definition strip_by (p : ascii -> bool) (s : string) : string :=
  rstrip p (lstrip p s).

(** [s.strip(q)] where [q] is the double quote character *)
Definition strip_dquote (s : string) : string :=
  strip_by (fun a => Ascii.eqb a dquote) s.

(** Whitespace of [str.strip()] among the code points below 256: tab, line
    feed, vertical tab, form feed, carriage return, the four separators
    28..31, the space, next line (133) and the no-break space (160). *)
Definition isspace (a : ascii) : bool :=
  let n := nat_of_ascii a in
  ((9 <=? n) && (n <=? 13) || (28 <=? n) && (n <=? 32)
   || (n =? 133) || (n =? 160))%nat.

(** [s.strip()] *)
Definition strip (s : string) : string := strip_by isspace s.

(** [l[-k]] for [k >= 1] *)
Definition nth_from_end {A} (l : list A) (k : nat) : option A :=
  nth_error (rev l) (k - 1).

(** [x in l] for strings *)
Definition mem (x : string) (l : list string) : bool :=
  existsb (String.eqb x) l.

(** Truthiness of the optional values found in [module.params]. *)
Definition truthy_int (o : option Z) : bool :=
  match o with Some n => negb (n =? 0) | None => false end.

Definition truthy_bool (o : option bool) : bool :=
  match o with Some b => b | None => false end.

Definition truthy_str (o : option string) : bool :=
  match o with Some s => negb (is_empty s) | None => false end.

Definition truthy_list {A} (o : option (list A)) : bool :=
  match o with Some (_ :: _) => true | _ => false end.

End Py.

(** ** Data *)

(** A [datetime], as microseconds since [datetime(1970,1,1)].  Python's
    datetimes span the years 1 to 9999, that is distances below [2^69]. *)
Definition datetime := Z.

(** An exact number of seconds, kept in microseconds. *)
Definition seconds := Z.

(** An [int] number of seconds, as [skip_period] is, in microseconds. *)
Definition seconds_of_int (n : Z) : seconds := n * 1000000.

(** What [datetime.utcnow()] returns, by the number of the snapshot row
    being processed. *)
Definition clock := nat -> datetime.

(** The clock as the rows after the first see it. *)
Definition tick (now : clock) : clock := fun i => now (S i).

(** ** Python floats *)

Module PyFloat.

Definition float := spec_float.

Definition prec : Z := 53.
Definition emax : Z := 1024.

(** [0.0], and the [int] 0 in a comparison with a float. *)
Definition zero : float := S754_zero false.

(** [float(n)] for an [int]: the nearest float, ties to even;
    [None] stands for [OverflowError]. *)
Definition of_int (n : Z) : option float :=
  match binary_normalize prec emax n 0 false with
  | S754_infinity _ => None
  | f => Some f
  end.

(** [a / b] for two [int]s, [b] positive: the nearest float to the
    quotient, ties to even. *)
Definition true_div (a b : Z) : float :=
  match a with
  | 0 => zero
  | _ =>
      let '(mz, ez, lz) := SFdiv_core_binary prec emax (Z.abs a) 0 b 0 in
      binary_round_aux prec emax (a <? 0) mz ez lz
  end.

(** [x - y] *)
Definition sub (x y : float) : float := SFsub prec emax x y.

(** [x > y] *)
Definition gt (x y : float) : bool := SFltb y x.

End PyFloat.

(** [(d - datetime(1970,1,1)).total_seconds()]: the microseconds of the
    difference divided by [10**6]. *)
Definition total_seconds (d : datetime) : PyFloat.float :=
  PyFloat.true_div d 1000000.

(** One row of the statistics query of [get_user_tables_stat].  Columns 0
    and 1 are [schemaname] and [relname]; [stamps] holds the columns from
    index 2 on, each a timestamp or [None]. *)
Record Row := mkRow {
  schemaname : string;
  relname : string;
  stamps : list (option datetime)
}.

(** The statistics of one relation, and its row under the column list
    [schemaname, relname, last_vacuum, last_autovacuum, last_analyze,
    last_autoanalyze] that [get_user_tables_stat] selects. *)
Record RelationStat := mkStat {
  schema : string;
  name : string;
  last_vacuum : option datetime;
  last_autovacuum : option datetime;
  last_analyze : option datetime;
  last_autoanalyze : option datetime
}.

Definition row_of_stat (r : RelationStat) : Row :=
  mkRow (schema r) (name r)
        [last_vacuum r; last_autovacuum r; last_analyze r; last_autoanalyze r].

(** [module.params], restricted to the options [do] and [main] read. *)
Record Params := mkParams {
  tables : option (list string);
  skip_period : option Z;
  analyze_only : option bool;
  full : option bool;
  additional_args : option string
}.

Record Module := mkModule {
  params : Params;
  check_mode : bool
}.

(** What ends a run early: [module.fail_json(msg=...)], or an uncaught
    [IndexError] or [OverflowError]. *)
Inductive Exception :=
| FailJson (msg : string)
| IndexError
| OverflowError.

Inductive Res (A : Type) :=
| Ok (a : A)
| Exn (e : Exception).
Arguments Ok {A} a.
Arguments Exn {A} e.

(** A request sent to the database through the connection or the cursor. *)
Inductive Request :=
| ReqConnect
| ReqStat
| ReqExists (table_schema table_name : string)
| ReqExec (query : string).

(** The database as the module sees it: the catalog of existing relations,
    the rows of [pg_stat_user_tables], and for a statement the error it is
    rejected with, if any. *)
Record Store := mkStore {
  catalog : list (string * string);
  pg_stat_user_tables : list Row;
  rejects : string -> option string
}.

(** The [Vacuum] object.  [cursor_log] lists what [self.cursor] has been
    asked so far, oldest first. *)
Record VacuumObject := mkVacuum {
  module : Module;
  stat_user_tables : list Row;
  executed_queries : list string;
  changed : bool;
  cursor_log : list Request
}.

(** ** The monad of a run *)

Definition M (A : Type) := VacuumObject -> Res A * VacuumObject.

Definition ret {A} (a : A) : M A := fun self => (Ok a, self).

Definition raise {A} (e : Exception) : M A := fun self => (Exn e, self).

Definition bind {A B} (c : M A) (k : A -> M B) : M B :=
  fun self =>
    match c self with
    | (Ok a, self') => k a self'
    | (Exn e, self') => (Exn e, self')
    end.

Notation "x <- c ;; k" := (bind c (fun x => k))
  (at level 61, c at next level, right associativity).
Notation "c ;; k" := (bind c (fun _ => k))
  (at level 61, right associativity).

Definition lift {A} (r : Res A) : M A := fun self => (r, self).

Definition gets {A} (f : VacuumObject -> A) : M A :=
  fun self => (Ok (f self), self).

(** [self.changed = True] *)
Definition set_changed : M unit :=
  fun self =>
    (Ok tt, mkVacuum (module self) (stat_user_tables self)
                     (executed_queries self) true (cursor_log self)).

(** [self.executed_queries.append(query)] *)
Definition append_executed (query : string) : M unit :=
  fun self =>
    (Ok tt, mkVacuum (module self) (stat_user_tables self)
                     (executed_queries self ++ [query])%list (changed self)
                     (cursor_log self)).

(** The cursor sends one request. *)
Definition send (r : Request) : M unit :=
  fun self =>
    (Ok tt, mkVacuum (module self) (stat_user_tables self)
                     (executed_queries self) (changed self)
                     (cursor_log self ++ [r])%list).

Definition when (b : bool) (c : M unit) : M unit := if b then c else ret tt.

(** ** Collaborators outside the module *)

(** Modelled from the spec: [exec_sql] of [ansible.module_utils.postgres]
    is not part of the sources at hand.  Following the external interfaces
    of the spec it is split by use: [fetchStats() -> sequence of
    RelationStat], [exists(schema, name) -> bool], and [execute(statement)],
    whose failure ends the run with an error carrying the statement.  Only
    the last use is called with [add_to_executed] left at its default, so
    only it records the query in [executed_queries]. *)
Definition exec_sql_stat (db : Store) : M (list Row) :=
  send ReqStat ;;
  ret (pg_stat_user_tables db).

Definition exec_sql_exists (db : Store) (table_schema table_name : string)
  : M bool :=
  send (ReqExists table_schema table_name) ;;
  ret (existsb (fun r => String.eqb (fst r) table_schema
                         && String.eqb (snd r) table_name)
               (catalog db)).

Definition exec_sql_ddl (db : Store) (query : string) : M bool :=
  send (ReqExec query) ;;
  match rejects db query with
  | Some err =>
      raise (FailJson ("Cannot execute SQL '" ++ query ++ "': " ++ err))
  | None =>
      append_executed query ;;
      ret true
  end.

(** ** The module *)

(** [row[k]] for a column [k >= 2] *)
Definition row_item (row : Row) (k : nat) : Res (option datetime) :=
  match nth_error (stamps row) (k - 2) with
  | Some c => Ok c
  | None => Exn IndexError
  end.

(** The pattern [last = 0] followed by
    [if row[k]: last = (row[k] - datetime(1970,1,1)).total_seconds()]. *)
Definition seconds_or_zero (row : Row) (k : nat) : Res PyFloat.float :=
  match row_item row k with
  | Ok (Some d) => Ok (total_seconds d)
  | Ok None => Ok PyFloat.zero
  | Exn e => Exn e
  end.

(** [(datetime.utcnow() - datetime(1970,1,1)).total_seconds() - skip_period],
    [now] being what [utcnow()] returns. *)
Definition skip_tstamp_at (now : datetime) (skip : Z) : Res PyFloat.float :=
  match PyFloat.of_int skip with
  | Some f => Ok (PyFloat.sub (total_seconds now) f)
  | None => Exn OverflowError
  end.

(** The format ["%s"."%s"] (each name in double quotes, a dot between). *)
Definition quoted (schema_ table : string) : string :=
  String Py.dquote (schema_ ++ String Py.dquote
    ("." ++ String Py.dquote (table ++ String Py.dquote Py.empty))).

(** [x in tbl_list] *)
Definition in_tbl_list (x : string) (tbl_list : option (list string)) : bool :=
  match tbl_list with
  | Some l => Py.mem x l
  | None => false
  end.

(** The value of an [int] option that the guard has found truthy. *)
Definition int_value (o : option Z) : Z :=
  match o with Some n => n | None => 0 end.

Definition str_value (o : option string) : string :=
  match o with Some s => s | None => Py.empty end.

Module Vacuum.

(** [Vacuum.get_user_tables_stat] *)
Definition get_user_tables_stat (db : Store) : M (list Row) :=
  exec_sql_stat db.

(** [Vacuum.__init__]: the fresh object, with the statistics fetched.
    [log] is what the connection has been asked before. *)
Definition __init__ (db : Store) (m : Module) (log : list Request)
  : Res unit * VacuumObject :=
  let self := mkVacuum m [] [] false log in
  match get_user_tables_stat db self with
  | (Ok rows, self') =>
      (Ok tt, mkVacuum (module self') rows (executed_queries self')
                       (changed self') (cursor_log self'))
  | (Exn e, self') => (Exn e, self')
  end.

(** [Vacuum.__check_table] *)
Definition __check_table (db : Store) (tblname : string) : M bool :=
  let tmp := Py.split "." tblname in
  match Py.nth_from_end tmp 2 with
  | None => raise IndexError
  | Some t2 =>
      let table_schema := Py.strip_dquote t2 in
      match Py.nth_from_end tmp 1 with
      | None => raise IndexError
      | Some t1 =>
          let table_name := Py.strip_dquote t1 in
          found <- exec_sql_exists db table_schema table_name ;;
          if negb found then
            raise (FailJson ("table " ++ table_name ++ " in schema "
                             ++ table_schema ++ " does not exist"))
          else ret true
      end
  end.

(** [for tbl in tbl_list: self.__check_table(tbl)] *)
Fixpoint check_tables (db : Store) (l : list string) : M unit :=
  match l with
  | [] => ret tt
  | tbl :: rest => __check_table db tbl ;; check_tables db rest
  end.

(** The first entry of [opt_list]. *)
Definition mode_keyword (p : Params) : string :=
  if Py.truthy_bool (analyze_only p) then "ANALYZE"
  else if Py.truthy_bool (full p) then "VACUUM_FULL"
  else "VACUUM".

(** [opt_list] as it stands before the loop over the statistics. *)
Definition opt_list_head (p : Params) : list string :=
  ([mode_keyword p]
   ++ (if Py.truthy_str (additional_args p)
       then [str_value (additional_args p)] else []))%list.

(** The recency test of one row, under the guard
    [not full and skip_period]: [Ok true] when the [continue] is taken.
    [now] is what [datetime.utcnow()] returns for this row. *)
Definition recency_test (p : Params) (now : datetime) (row : Row)
  : Res bool :=
  match skip_tstamp_at now (int_value (skip_period p)) with
  | Exn e => Exn e
  | Ok skip_tstamp =>
      if Py.truthy_bool (analyze_only p) then
        match seconds_or_zero row 5 with
        | Exn e => Exn e
        | Ok last_analyze_ =>
            match seconds_or_zero row 6 with
            | Exn e => Exn e
            | Ok last_autoanalyze_ =>
                Ok (PyFloat.gt skip_tstamp last_analyze_
                    || PyFloat.gt skip_tstamp last_autoanalyze_)
            end
        end
      else
        match seconds_or_zero row 3 with
        | Exn e => Exn e
        | Ok last_vacuum_ =>
            match seconds_or_zero row 4 with
            | Exn e => Exn e
            | Ok last_autovacuum_ =>
                Ok (PyFloat.gt skip_tstamp last_vacuum_
                    || PyFloat.gt skip_tstamp last_autovacuum_)
            end
        end
  end.

(** The body of [for row in self.stat_user_tables]; the result is
    [tmp_tbl_list] after the row.  A [continue] returns it unchanged.
    [now] is what [datetime.utcnow()] returns for this row. *)
Definition do_row (now : datetime) (tbl_list : option (list string))
           (tmp_tbl_list : list string) (row : Row) : M (list string) :=
  m <- gets module ;;
  let p := params m in
  let schema_ := schemaname row in
  let table := relname row in
  if Py.truthy_list tbl_list
     && negb (in_tbl_list (quoted schema_ table) tbl_list)
  then ret tmp_tbl_list
  else
    skip <- (if negb (Py.truthy_bool (full p))
                && Py.truthy_int (skip_period p)
             then
               c <- lift (recency_test p now row) ;;
               if c then ret true
               else when (check_mode m) set_changed ;; ret false
             else ret false) ;;
    if (skip : bool) then ret tmp_tbl_list
    else if Py.truthy_list tbl_list
         then ret (tmp_tbl_list ++ [quoted schema_ table])%list
         else ret tmp_tbl_list.

Fixpoint for_rows (now : clock) (tbl_list : option (list string))
         (rows : list Row) (tmp_tbl_list : list string)
  : M (list string) :=
  match rows with
  | [] => ret tmp_tbl_list
  | row :: rest =>
      tmp' <- do_row (now 0%nat) tbl_list tmp_tbl_list row ;;
      for_rows (tick now) tbl_list rest tmp'
  end.

(** [opt_list] after the loop, joined: the [query]. *)
Definition compose (p : Params) (tmp_tbl_list : list string) : string :=
  let opt_list :=
    (opt_list_head p
     ++ (match tmp_tbl_list with
         | [] => []
         | _ :: _ => [Py.join ", " tmp_tbl_list]
         end))%list in
  Py.join " " opt_list.

(** [Vacuum.do] *)
Definition do (db : Store) (now : clock)
           (tbl_list : option (list string)) : M unit :=
  when (Py.truthy_list tbl_list)
       (check_tables db (match tbl_list with Some l => l | None => [] end)) ;;
  m <- gets module ;;
  let p := params m in
  rows <- gets stat_user_tables ;;
  tmp_tbl_list <- for_rows now tbl_list rows [] ;;
  let query := compose p tmp_tbl_list in
  if check_mode m then
    when (negb (Py.truthy_int (skip_period p))) set_changed ;;
    append_executed query ;;
    ret tt
  else
    ok <- exec_sql_ddl db query ;;
    when ok set_changed.

End Vacuum.

(** How a run of the module ends: [module.exit_json(changed=..., queries=...)],
    or a failure ([fail_json] or an uncaught exception). *)
Inductive Exit :=
| ExitJson (changed_ : bool) (queries : list string)
| ExitFail (e : Exception).

(** The exit status of the process. *)
Definition exit_code (x : Exit) : Z :=
  match x with
  | ExitJson _ _ => 0
  | ExitFail _ => 1
  end.

(** The names of the options the caller supplied. *)
Definition supplied (p : Params) : list string :=
  ((match tables p with Some _ => ["tables"] | None => [] end)
   ++ (match skip_period p with Some _ => ["skip_period"] | None => [] end)
   ++ (match analyze_only p with Some _ => ["analyze_only"] | None => [] end)
   ++ (match full p with Some _ => ["full"] | None => [] end)
   ++ (match additional_args p with
       | Some _ => ["additional_args"] | None => [] end))%list.

(** Modelled from the spec: the argument validation of [AnsibleModule]
    ([ansible.module_utils.basic]) is not part of the sources at hand.  The
    spec gives one rule for it, InvalidOptionCombination: options listed
    together in [mutually_exclusive] must not be supplied together; the
    violation is fatal and found before any store interaction. *)
Definition check_mutually_exclusive (groups : list (list string))
           (p : Params) : Res unit :=
  match
    find (fun g =>
            (1 <? List.length (filter (fun t => Py.mem t (supplied p)) g))%nat)
         groups
  with
  | Some g =>
      Exn (FailJson ("parameters are mutually exclusive: " ++ Py.join "|" g))
  | None => Ok tt
  end.

(** Modelled from the spec: the constructor [AnsibleModule(argument_spec,
    supports_check_mode, mutually_exclusive)], reduced to the validation
    above; [check] is the check mode the runner asked for. *)
Definition AnsibleModule (mutually_exclusive : list (list string))
           (p : Params) (check : bool) : Res Module :=
  match check_mutually_exclusive mutually_exclusive p with
  | Exn e => Exn e
  | Ok _ => Ok (mkModule p check)
  end.

Section Main.

(** [pg_quote_identifier] of [ansible.module_utils.database] is not part
    of the sources at hand; it is a parameter of [main]. *)
Variable pg_quote_identifier : string -> string -> Res string.

(** [transform_tables_representation] *)
Fixpoint transform_tables_representation (tbl_list : list string)
  : Res (list string) :=
  match tbl_list with
  | [] => Ok []
  | table :: rest =>
      match
        (if negb (Py.contains "." table)
         then pg_quote_identifier ("public." ++ Py.strip table) "table"
         else pg_quote_identifier (Py.strip table) "table")
      with
      | Exn e => Exn e
      | Ok q =>
          match transform_tables_representation rest with
          | Exn e => Exn e
          | Ok rest' => Ok (q :: rest')
          end
      end
  end.

(** [main]: the exit of the run and what the database was asked.
    Opening the connection is the request [ReqConnect]; its failure is
    not modelled. *)
Definition main (db : Store) (now : clock) (p : Params) (check : bool)
  : Exit * list Request :=
  match
    AnsibleModule [["full"; "analyze_only"]; ["full"; "skip_period"]] p check
  with
  | Exn e => (ExitFail e, [])
  | Ok m =>
      match Vacuum.__init__ db m [ReqConnect] with
      | (Exn e, vacuum) => (ExitFail e, cursor_log vacuum)
      | (Ok _, vacuum) =>
          match
            (if Py.truthy_list (tables (params m))
             then match transform_tables_representation
                          (match tables (params m) with
                           | Some l => l | None => [] end)
                  with
                  | Ok l => Ok (Some l)
                  | Exn e => Exn e
                  end
             else Ok None)
          with
          | Exn e => (ExitFail e, cursor_log vacuum)
          | Ok tbl_list =>
              match Vacuum.do db now tbl_list vacuum with
              | (Exn e, vacuum') => (ExitFail e, cursor_log vacuum')
              | (Ok _, vacuum') =>
                  (ExitJson (changed vacuum') (executed_queries vacuum'),
                   cursor_log vacuum')
              end
          end
      end
  end.

End Main.

(** ** The statement composer as the specification words it *)

Module Spec.

Inductive Mode := VACUUM | VACUUM_FULL | ANALYZE_ONLY.

(** The mode keyword; full mode is the single sentinel [VACUUM_FULL]. *)
Definition keyword (mode : Mode) : string :=
  match mode with
  | VACUUM => "VACUUM"
  | VACUUM_FULL => "VACUUM_FULL"
  | ANALYZE_ONLY => "ANALYZE"
  end.

(** The ordered token list: mode keyword, then the extra modifiers if
    present, then the selected targets joined with a comma and a space if
    there are any. *)
Definition tokens (mode : Mode) (extra_modifiers : option string)
           (selected_targets : list string) : list string :=
  (keyword mode
   :: (match extra_modifiers with Some e => [e] | None => [] end)
   ++ (if (0 <? List.length selected_targets)%nat
       then [String.concat ", " selected_targets] else []))%list.

(** Tokens joined with a single space. *)
Definition statement (mode : Mode) (extra_modifiers : option string)
           (selected_targets : list string) : string :=
  String.concat " " (tokens mode extra_modifiers selected_targets).

(** The Skip-Period Filter as the specification words it, on exact times
    in microseconds: with [threshold = now - skip_period] and an absent
    timestamp taken as the epoch, a relation is processed when the
    threshold is past its last manual or its last automatic run of the
    mode (analyze for [ANALYZE_ONLY], vacuum for [VACUUM]), and skipped
    only when neither is the case.  Full mode does not filter. *)
Definition processed (mode : Mode) (threshold_ : Z) (r : RelationStat)
  : bool :=
  let at_ (t : option Z) := match t with Some d => d | None => 0 end in
  match mode with
  | VACUUM_FULL => true
  | ANALYZE_ONLY =>
      (threshold_ >? at_ (last_analyze r))
      || (threshold_ >? at_ (last_autoanalyze r))
  | VACUUM =>
      (threshold_ >? at_ (last_vacuum r))
      || (threshold_ >? at_ (last_autovacuum r))
  end.

End Spec.

(** The request a parameter set stands for.  An option counts as given when
    the module finds it truthy. *)
Definition mode_of (p : Params) : Spec.Mode :=
  if Py.truthy_bool (analyze_only p) then Spec.ANALYZE_ONLY
  else if Py.truthy_bool (full p) then Spec.VACUUM_FULL
  else Spec.VACUUM.

Definition extra_modifiers_of (p : Params) : option string :=
  if Py.truthy_str (additional_args p) then additional_args p else None.

(** ** Notions used to state the properties *)

(** The qualified, quoted name [do] gives to the relation of a row. *)
Definition qualified (row : Row) : string :=
  quoted (schemaname row) (relname row).

(** A row is a candidate unless an explicit target list leaves it out. *)
Definition candidate (tbl_list : option (list string)) (row : Row) : bool :=
  negb (Py.truthy_list tbl_list && negb (in_tbl_list (qualified row) tbl_list)).

(** The guard [not full and skip_period] of the Skip-Period Filter. *)
Definition filtering (p : Params) : bool :=
  negb (Py.truthy_bool (full p)) && Py.truthy_int (skip_period p).

(** The filter on one candidate row: [Ok true] when the row is skipped (the
    [continue]), [Ok false] when it is selected, [Exn] when evaluating the
    row raises. *)
Definition row_verdict (p : Params) (now : datetime) (row : Row) : Res bool :=
  if filtering p then Vacuum.recency_test p now row else Ok false.

Definition selected_by_filter (p : Params) (now : datetime) (row : Row)
  : bool :=
  match row_verdict p now row with Ok false => true | _ => false end.

(** The threshold [now - skip_period], exactly. *)
Definition threshold (now : datetime) (skip : Z) : seconds :=
  now - seconds_of_int skip.

(** An absent timestamp counts as the epoch. *)
Definition stamp_or_epoch (t : option datetime) : seconds :=
  match t with Some d => d | None => 0 end.

(** The float a timestamp column stands for in the recency test: its
    [total_seconds()], or 0 when it is [None]. *)
Definition float_or_zero (t : option datetime) : PyFloat.float :=
  match t with Some d => total_seconds d | None => PyFloat.zero end.

(** The object with [self.changed] set. *)
Definition mark_changed (self : VacuumObject) : VacuumObject :=
  mkVacuum (module self) (stat_user_tables self) (executed_queries self)
           true (cursor_log self).

(** The schema and the relation a target name stands for, as
    [__check_table] reads them; [None] when the name has no dot. *)
Definition target_parts (tblname : string) : option (string * string) :=
  let tmp := Py.split "." tblname in
  match Py.nth_from_end tmp 2, Py.nth_from_end tmp 1 with
  | Some t2, Some t1 => Some (Py.strip_dquote t2, Py.strip_dquote t1)
  | _, _ => None
  end.

Definition in_catalog (db : Store) (table_schema table_name : string) : bool :=
  existsb (fun r => String.eqb (fst r) table_schema
                    && String.eqb (snd r) table_name)
          (catalog db).

(** A target that names a relation of the catalog. *)
Definition target_exists (db : Store) (tblname : string) : bool :=
  match target_parts tblname with
  | Some (s, n) => in_catalog db s n
  | None => false
  end.


(** The message of [__check_table] for a missing relation. *)
Definition not_found_message (tblname : string) : string :=
  match target_parts tblname with
  | Some (s, n) => "table " ++ n ++ " in schema " ++ s ++ " does not exist"
  | None => Py.empty
  end.

Definition is_exec (r : Request) : bool :=
  match r with ReqExec _ => true | _ => false end.

Definition is_exists (r : Request) : bool :=
  match r with ReqExists _ _ => true | _ => false end.

(** The targets of an optional list. *)
Definition targets_of (tbl_list : option (list string)) : list string :=
  match tbl_list with Some l => l | None => [] end.

(** The names [do] appends to [tmp_tbl_list] when no row is filtered out. *)
Definition candidate_names (tbl_list : option (list string))
           (rows : list Row) : list string :=
  if Py.truthy_list tbl_list
  then map qualified (filter (candidate tbl_list) rows)
  else [].

(** The statement without a target clause. *)
Definition bare_statement (p : Params) : string :=
  Py.join " " (Vacuum.opt_list_head p).

(** The rows the loop of [do] lets through, in order: the candidates the
    filter selects; or the exception of the first candidate whose
    evaluation raises. *)
Fixpoint selected_rows (p : Params) (now : clock)
         (tbl_list : option (list string)) (rows : list Row)
  : Res (list Row) :=
  match rows with
  | [] => Ok []
  | row :: rest =>
      if negb (candidate tbl_list row)
      then selected_rows p (tick now) tbl_list rest
      else
        match row_verdict p (now 0%nat) row with
        | Exn e => Exn e
        | Ok true => selected_rows p (tick now) tbl_list rest
        | Ok false =>
            match selected_rows p (tick now) tbl_list rest with
            | Ok l => Ok (row :: l)
            | Exn e => Exn e
            end
        end
  end.

(** The names appended to [tmp_tbl_list] for the rows let through. *)
Definition names_for (tbl_list : option (list string)) (sel : list Row)
  : list string :=
  if Py.truthy_list tbl_list then map qualified sel else [].

Definition nonempty {A} (l : list A) : bool :=
  match l with [] => false | _ :: _ => true end.

(** The object after the cursor has sent the requests [l]. *)
Definition asked (l : list Request) (self : VacuumObject) : VacuumObject :=
  mkVacuum (module self) (stat_user_tables self) (executed_queries self)
           (changed self) (cursor_log self ++ l)%list.

(** The object after [query] was appended to [executed_queries]. *)
Definition recorded (query : string) (self : VacuumObject) : VacuumObject :=
  mkVacuum (module self) (stat_user_tables self)
           (executed_queries self ++ [query])%list (changed self)
           (cursor_log self).

(** The existence requests [__check_table] sends for a list of targets. *)
Definition exists_requests (l : list string) : list Request :=
  flat_map (fun t => match target_parts t with
                     | Some (s, n) => [ReqExists s n]
                     | None => []
                     end) l.

(** The end of [do], from the composed [query] on. *)
Definition finish (db : Store) (query : string) : M unit :=
  m <- gets module ;;
  if check_mode m then
    when (negb (Py.truthy_int (skip_period (params m)))) set_changed ;;
    append_executed query ;;
    ret tt
  else
    ok <- exec_sql_ddl db query ;;
    when ok set_changed.

(** The existence checks [do] starts with. *)
Definition check_targets (db : Store) (tbl_list : option (list string))
  : M unit :=
  when (Py.truthy_list tbl_list)
       (Vacuum.check_tables db (targets_of tbl_list)).

(** A target name with a schema part, so that [__check_table] can read both
    the schema and the relation. *)
Definition has_schema_part (tblname : string) : bool :=
  match target_parts tblname with Some _ => true | None => false end.

(** A row that [do] lets through: a candidate that the filter selects,
    [now] being the time read for the row. *)
Definition let_through (p : Params) (now : datetime)
           (tbl_list : option (list string)) (row : Row) : bool :=
  candidate tbl_list row && selected_by_filter p now row.

(** The rows of a snapshot that [do] lets through, in order, each under
    the time read for it. *)
Fixpoint rows_let_through (p : Params) (now : clock)
         (tbl_list : option (list string)) (rows : list Row) : list Row :=
  match rows with
  | [] => []
  | row :: rest =>
      (if let_through p (now 0%nat) tbl_list row then [row] else [])
      ++ rows_let_through p (tick now) tbl_list rest
  end.

(** A [skip_period] that converts to a float. *)
Definition skip_period_converts (p : Params) : bool :=
  match PyFloat.of_int (int_value (skip_period p)) with
  | Some _ => true
  | None => false
  end.

(** The name [transform_tables_representation] hands to
    [pg_quote_identifier] for a raw table name. *)
Definition name_to_quote (table : string) : string :=
  if negb (Py.contains "." table) then "public." ++ Py.strip table
  else Py.strip table.

(** The requests of a log that execute a statement. *)
Definition executions (log : list Request) : list Request :=
  filter is_exec log.

(** The target list [main] passes to [do]: [None] when [tables] is not
    given or empty, the transformed names otherwise. *)
Definition tbl_list_of (pg_quote_identifier : string -> string -> Res string)
           (p : Params) : Res (option (list string)) :=
  if Py.truthy_list (tables p)
  then match transform_tables_representation pg_quote_identifier
               (targets_of (tables p)) with
       | Ok l => Ok (Some l)
       | Exn e => Exn e
       end
  else Ok None.

(** The object [main] holds once [Vacuum(module, cursor)] has returned. *)
Definition connected (db : Store) (m : Module) : VacuumObject :=
  mkVacuum m (pg_stat_user_tables db) [] false [ReqConnect; ReqStat].

(** The groups [main] declares mutually exclusive. *)
Definition exclusive_groups : list (list string) :=
  [["full"; "analyze_only"]; ["full"; "skip_period"]].



(** ** Concrete runs *)

Module Scenario.

Definition now : datetime := seconds_of_int 1600000000.

(** A clock that reads [now] for the first row and advances by a
    millisecond from row to row. *)
Definition clock : nat -> datetime := fun i => now + 1000 * Z.of_nat i.

Definition ago (n : Z) : option datetime := Some (now - seconds_of_int n).

(** [public.t1], last processed two hours ago, half an hour ago, never. *)
Definition stale : RelationStat :=
  mkStat "public" "t1" (ago 7200) (ago 7200) (ago 7200) (ago 7200).

Definition recent : RelationStat :=
  mkStat "public" "t1" (ago 1800) (ago 1800) (ago 1800) (ago 1800).

Definition never : RelationStat :=
  mkStat "public" "t1" None None None None.

(** A database that holds [public.t1] with the given statistics and
    accepts every statement. *)
Definition db (s : RelationStat) : Store :=
  mkStore [("public", "t1")] [row_of_stat s] (fun _ => None).

(** A database without user tables. *)
Definition empty_db : Store := mkStore [] [] (fun _ => None).

(** The object [main] builds before it calls [do]. *)
Definition fresh (d : Store) (p : Params) (check : bool) : VacuumObject :=
  snd (Vacuum.__init__ d (mkModule p check) [ReqConnect]).

Definition t1 : string := quoted "public" "t1".
Definition orders : string := quoted "public" "orders".

Definition vacuum_skip (tbl : option (list string)) : Params :=
  mkParams tbl (Some 3600) None None None.

Definition analyze_skip (tbl : option (list string)) : Params :=
  mkParams tbl (Some 60) (Some true) None None.

Definition plain (tbl : option (list string)) : Params :=
  mkParams tbl None None None None.

Definition full_skip (tbl : option (list string)) : Params :=
  mkParams tbl (Some 3600) None (Some true) (Some "analyze").

Definition zero_skip : Params := mkParams None (Some 0) None None None.

(** A database whose catalog holds [schema.t] and no relation [t] in a
    schema named [my.schema]. *)
Definition dotted_db : Store :=
  mkStore [("schema", "t")]
          [mkRow "schema" "t" [None; None; None; None]]
          (fun _ => None).

(** The target naming the relation [t] of the schema [my.schema]. *)
Definition dotted : string := quoted "my.schema" "t".

(** A reading of the clock and a skip period whose exact difference is the
    time [on_threshold] of a last vacuum, in microseconds. *)
Definition late : datetime := 1616592554177596.
Definition long_skip : Z := 1500000000.
Definition on_threshold : datetime := 116592554177596.

(** A skip period too large for a float. *)
Definition huge_skip : Params :=
  mkParams None (Some (2 ^ 1024)) None None None.

(** [pg_quote_identifier] refusing every name. *)
Definition refuse_identifier (s : string) (_ : string) : Res string :=
  Exn (FailJson ("cannot quote " ++ s)).

(** A stand-in for [pg_quote_identifier] on names of the form
    [schema.table] without quotes or further dots. *)
Definition quote_identifier (s : string) (_ : string) : Res string :=
  match Py.split "." s with
  | [a; b] => Ok (quoted a b)
  | _ => Exn (FailJson "unsupported identifier")
  end.

End Scenario.

(** * Properties *)

(** ** The loop over the statistics *)

Lemma do_row_eq now tbl_list tmp row self :
  Vacuum.do_row now tbl_list tmp row self =
  let p := params (module self) in
  if negb (candidate tbl_list row) then (Ok tmp, self)
  else
    match row_verdict p now row with
    | Exn e => (Exn e, self)
    | Ok true => (Ok tmp, self)
    | Ok false =>
        (Ok (if Py.truthy_list tbl_list
             then (tmp ++ [qualified row])%list else tmp),
         if filtering p && check_mode (module self)
         then mark_changed self else self)
    end.
Proof.
  unfold Vacuum.do_row, candidate, row_verdict, filtering, qualified,
    bind, gets, lift, ret, when, set_changed, mark_changed.
  cbn zeta.
  destruct (Py.truthy_list tbl_list
            && negb (in_tbl_list (quoted (schemaname row) (relname row))
                                 tbl_list)) eqn:Hc; cbn [negb]; [reflexivity|].
  destruct (negb (Py.truthy_bool (full (params (module self))))
            && Py.truthy_int (skip_period (params (module self)))) eqn:Hf;
    cbn [andb].
  - destruct (Vacuum.recency_test (params (module self)) now row)
      as [[|]|e]; cbn; try reflexivity.
    destruct (check_mode (module self)); cbn;
      destruct (Py.truthy_list tbl_list); reflexivity.
  - destruct (Py.truthy_list tbl_list); reflexivity.
Qed.

Lemma names_for_cons tbl_list row l :
  names_for tbl_list (row :: l)
  = ((if Py.truthy_list tbl_list then [qualified row] else [])
     ++ names_for tbl_list l)%list.
Proof. unfold names_for. destruct (Py.truthy_list tbl_list); reflexivity. Qed.

(** A loop that completes appends the names of the selected rows and, in
    check mode with the filter on, sets [changed] when a row was selected. *)
Lemma for_rows_ok tbl_list rows :
  forall now tmp self sel,
    selected_rows (params (module self)) now tbl_list rows = Ok sel ->
    Vacuum.for_rows now tbl_list rows tmp self =
    (Ok (tmp ++ names_for tbl_list sel)%list,
     if filtering (params (module self)) && check_mode (module self)
        && nonempty sel
     then mark_changed self else self).
Proof.
  induction rows as [|row rest IH]; intros now tmp self sel Hsel;
    cbn in Hsel.
  - injection Hsel as <-. cbn. unfold ret, names_for.
    rewrite andb_false_r.
    destruct (Py.truthy_list tbl_list); rewrite app_nil_r; reflexivity.
  - cbn [Vacuum.for_rows]. unfold bind at 1. rewrite do_row_eq. cbn zeta.
    destruct (negb (candidate tbl_list row)) eqn:Hc.
    + apply IH. exact Hsel.
    + destruct (row_verdict (params (module self)) (now 0%nat) row)
        as [[|]|e] eqn:Hv; [apply IH; exact Hsel| |discriminate].
      destruct (selected_rows (params (module self)) (tick now) tbl_list
                              rest)
        as [l|e] eqn:Hrest; [|discriminate].
      injection Hsel as <-.
      rewrite names_for_cons.
      set (self1 := if filtering (params (module self))
                       && check_mode (module self)
                    then mark_changed self else self).
      assert (Hm : module self1 = module self)
        by (unfold self1; destruct (_ && _); reflexivity).
      rewrite (IH (tick now) _ self1 l) by (rewrite Hm; exact Hrest).
      rewrite Hm. cbn [nonempty]. rewrite andb_true_r.
      f_equal.
      * f_equal. destruct (Py.truthy_list tbl_list); cbn.
        -- rewrite <- app_assoc. reflexivity.
        -- reflexivity.
      * unfold self1.
        destruct (filtering (params (module self)) && check_mode (module self));
          cbn [andb]; [destruct (nonempty l)|]; reflexivity.
Qed.

(** A loop that raises does so at a candidate row, and leaves the queries
    and the cursor as they were. *)
Lemma for_rows_exn tbl_list rows :
  forall now tmp self e,
    selected_rows (params (module self)) now tbl_list rows = Exn e ->
    exists self',
      Vacuum.for_rows now tbl_list rows tmp self = (Exn e, self')
      /\ module self' = module self
      /\ executed_queries self' = executed_queries self
      /\ cursor_log self' = cursor_log self.
Proof.
  induction rows as [|row rest IH]; intros now tmp self e Hsel;
    cbn in Hsel.
  - discriminate.
  - cbn [Vacuum.for_rows]. unfold bind at 1. rewrite do_row_eq. cbn zeta.
    destruct (negb (candidate tbl_list row)) eqn:Hc.
    + apply IH. exact Hsel.
    + destruct (row_verdict (params (module self)) (now 0%nat) row)
        as [[|]|e'] eqn:Hv.
      * apply IH. exact Hsel.
      * destruct (selected_rows (params (module self)) (tick now) tbl_list
                                rest)
          as [l|e''] eqn:Hrest; [discriminate|].
        injection Hsel as <-.
        set (self1 := if filtering (params (module self))
                         && check_mode (module self)
                      then mark_changed self else self).
        assert (Hm : module self1 = module self
                     /\ executed_queries self1 = executed_queries self
                     /\ cursor_log self1 = cursor_log self)
          by (unfold self1; destruct (_ && _); repeat split; reflexivity).
        destruct Hm as (Hm & Hq & Hl).
        destruct (IH (tick now)
                     (if Py.truthy_list tbl_list
                      then (tmp ++ [qualified row])%list else tmp)
                     self1 e'') as (self' & -> & H1 & H2 & H3).
        { rewrite Hm. exact Hrest. }
        exists self'. repeat split; congruence.
      * injection Hsel as <-. exists self. repeat split; reflexivity.
Qed.

(** ** The existence checks *)

Lemma asked_nil self : asked [] self = self.
Proof. destruct self; unfold asked; cbn. rewrite app_nil_r. reflexivity. Qed.

Lemma asked_app l1 l2 self : asked l2 (asked l1 self) = asked (l1 ++ l2) self.
Proof. unfold asked; cbn. rewrite app_assoc. reflexivity. Qed.

Lemma check_table_eq db t self :
  Vacuum.__check_table db t self =
  match target_parts t with
  | None => (Exn IndexError, self)
  | Some (s, n) =>
      if in_catalog db s n then (Ok true, asked [ReqExists s n] self)
      else (Exn (FailJson (not_found_message t)), asked [ReqExists s n] self)
  end.
Proof.
  unfold Vacuum.__check_table, target_parts, not_found_message, target_parts.
  cbn zeta.
  destruct (Py.nth_from_end (Py.split "." t) 2) as [t2|]; [|reflexivity].
  destruct (Py.nth_from_end (Py.split "." t) 1) as [t1|]; [|reflexivity].
  unfold bind, exec_sql_exists, send, ret, raise, in_catalog, asked. cbn.
  destruct (existsb _ (catalog db)); reflexivity.
Qed.

(** When every target names a relation of the catalog the checks pass; they
    send existence requests only. *)
Lemma check_tables_ok db l :
  forall self,
    forallb (target_exists db) l = true ->
    Vacuum.check_tables db l self = (Ok tt, asked (exists_requests l) self).
Proof.
  induction l as [|t rest IH]; intros self Hall; cbn in *.
  - unfold ret. rewrite asked_nil. reflexivity.
  - apply andb_prop in Hall as [Ht Hrest].
    unfold bind at 1. rewrite check_table_eq.
    unfold target_exists in Ht.
    destruct (target_parts t) as [[s n]|]; [|discriminate].
    rewrite Ht. rewrite (IH _ Hrest). rewrite asked_app. reflexivity.
Qed.


(** ** [do] in three steps *)

Lemma do_check_failed db now tbl_list self e s1 :
  check_targets db tbl_list self = (Exn e, s1) ->
  Vacuum.do db now tbl_list self = (Exn e, s1).
Proof.
  intros Hc. unfold Vacuum.do. unfold bind at 1.
  unfold check_targets, targets_of in Hc. rewrite Hc. reflexivity.
Qed.

Lemma do_loop_failed db now tbl_list self s1 e :
  check_targets db tbl_list self = (Ok tt, s1) ->
  selected_rows (params (module s1)) now tbl_list (stat_user_tables s1)
  = Exn e ->
  exists s2,
    Vacuum.do db now tbl_list self = (Exn e, s2)
    /\ executed_queries s2 = executed_queries s1
    /\ cursor_log s2 = cursor_log s1.
Proof.
  intros Hc Hsel. unfold Vacuum.do. unfold bind at 1.
  unfold check_targets, targets_of in Hc. rewrite Hc.
  unfold bind at 1. unfold gets at 1.
  unfold bind at 1. unfold gets at 1.
  unfold bind at 1.
  destruct (for_rows_exn tbl_list (stat_user_tables s1) now [] s1 e Hsel)
    as (s2 & -> & _ & Hq & Hl).
  exists s2. repeat split; assumption.
Qed.

Lemma do_completes db now tbl_list self s1 sel :
  check_targets db tbl_list self = (Ok tt, s1) ->
  selected_rows (params (module s1)) now tbl_list (stat_user_tables s1)
  = Ok sel ->
  Vacuum.do db now tbl_list self =
  finish db (Vacuum.compose (params (module s1)) (names_for tbl_list sel))
         (if filtering (params (module s1)) && check_mode (module s1)
             && nonempty sel
          then mark_changed s1 else s1).
Proof.
  intros Hc Hsel. unfold Vacuum.do. unfold bind at 1.
  unfold check_targets, targets_of in Hc. rewrite Hc.
  unfold bind at 1. unfold gets at 1.
  unfold bind at 1. unfold gets at 1.
  unfold bind at 1.
  rewrite (for_rows_ok tbl_list (stat_user_tables s1) now [] s1 sel Hsel).
  cbn [app].
  unfold finish. unfold bind at 3. unfold gets.
  destruct (filtering (params (module s1)) && check_mode (module s1)
            && nonempty sel); reflexivity.
Qed.

Lemma exists_requests_only l : forallb is_exists (exists_requests l) = true.
Proof.
  induction l as [|t rest IH]; [reflexivity|].
  unfold exists_requests in *. cbn [flat_map].
  rewrite forallb_app, IH.
  destruct (target_parts t) as [[s n]|]; reflexivity.
Qed.

Lemma check_targets_ok db tbl_list self :
  forallb (target_exists db) (targets_of tbl_list) = true ->
  check_targets db tbl_list self
  = (Ok tt, asked (exists_requests (targets_of tbl_list)) self).
Proof.
  intros Hall. unfold check_targets, when.
  destruct tbl_list as [[|t rest]|]; cbn [Py.truthy_list targets_of].
  - unfold ret. rewrite asked_nil. reflexivity.
  - apply check_tables_ok. exact Hall.
  - unfold ret. rewrite asked_nil. reflexivity.
Qed.

(** Whatever the checks answer, they only send existence requests. *)
Lemma check_tables_frame db l :
  forall self r s1,
    Vacuum.check_tables db l self = (r, s1) ->
    exists reqs, s1 = asked reqs self /\ forallb is_exists reqs = true.
Proof.
  induction l as [|t rest IH]; intros self r s1 H; cbn in H.
  - injection H as <- <-. exists []. rewrite asked_nil. split; reflexivity.
  - unfold bind at 1 in H. rewrite check_table_eq in H.
    destruct (target_parts t) as [[s n]|].
    + destruct (in_catalog db s n).
      * apply IH in H as (reqs & -> & Hr).
        exists (ReqExists s n :: reqs). rewrite asked_app.
        split; [reflexivity|exact Hr].
      * injection H as <- <-. exists [ReqExists s n]. split; reflexivity.
    + injection H as <- <-. exists []. rewrite asked_nil. split; reflexivity.
Qed.

Lemma check_targets_frame db tbl_list self r s1 :
  check_targets db tbl_list self = (r, s1) ->
  exists reqs, s1 = asked reqs self /\ forallb is_exists reqs = true.
Proof.
  unfold check_targets, when.
  destruct (Py.truthy_list tbl_list).
  - apply check_tables_frame.
  - intros H. injection H as <- <-. exists []. rewrite asked_nil.
    split; reflexivity.
Qed.

(** ** The end of [do] *)

Lemma finish_check db query self :
  check_mode (module self) = true ->
  finish db query self =
  (Ok tt,
   recorded query
     (if Py.truthy_int (skip_period (params (module self)))
      then self else mark_changed self)).
Proof.
  intros Hc. unfold finish, bind, gets. rewrite Hc.
  destruct (Py.truthy_int _); reflexivity.
Qed.

Lemma finish_exec db query self :
  check_mode (module self) = false ->
  finish db query self =
  match rejects db query with
  | Some err =>
      (Exn (FailJson ("Cannot execute SQL '" ++ query ++ "': " ++ err)),
       asked [ReqExec query] self)
  | None => (Ok tt, mark_changed (recorded query (asked [ReqExec query] self)))
  end.
Proof.
  intros Hc. unfold finish, bind, gets. rewrite Hc.
  unfold exec_sql_ddl, bind, send. cbn.
  destruct (rejects db query); reflexivity.
Qed.

(** ** The rows let through *)

Lemma selected_rows_unfiltered p tbl_list rows :
  forall now,
    filtering p = false ->
    selected_rows p now tbl_list rows = Ok (filter (candidate tbl_list) rows).
Proof.
  induction rows as [|row rest IH]; intros now Hf; [reflexivity|].
  cbn. unfold row_verdict. rewrite Hf, (IH (tick now) Hf).
  destruct (candidate tbl_list row); reflexivity.
Qed.

(** ** The statement composer *)

(** C10: the statement [do] composes is the token list of the specification
    joined with single spaces: the mode keyword ([VACUUM], the sentinel
    [VACUUM_FULL] or [ANALYZE]), then the additional arguments verbatim when
    given, then the selected targets joined with commas when there are any.
    It depends on the mode, the extra modifiers and the selected targets
    only, so equal triples give the same string. *)
Theorem compose_is_spec_statement (p : Params) (tmp_tbl_list : list string) :
  Vacuum.compose p tmp_tbl_list
  = Spec.statement (mode_of p) (extra_modifiers_of p) tmp_tbl_list
  /\ (forall p' tmp',
         mode_of p' = mode_of p ->
         extra_modifiers_of p' = extra_modifiers_of p ->
         tmp' = tmp_tbl_list ->
         Vacuum.compose p' tmp' = Vacuum.compose p tmp_tbl_list).
Proof.
  assert (Heq : forall q l,
             Vacuum.compose q l
             = Spec.statement (mode_of q) (extra_modifiers_of q) l).
  { intros q l.
    unfold Vacuum.compose, Vacuum.opt_list_head,
      Vacuum.mode_keyword, Spec.statement, Spec.tokens, mode_of,
      extra_modifiers_of, Py.join, str_value.
    cbn zeta.
    destruct (Py.truthy_bool (analyze_only q)),
             (Py.truthy_bool (full q));
      cbn [Spec.keyword];
      (destruct (additional_args q) as [a|]; cbn [Py.truthy_str];
       [destruct (negb (Py.is_empty a))|]);
      destruct l; reflexivity. }
  split; [apply Heq|].
  intros p' tmp' Hm He ->. rewrite !Heq, Hm, He. reflexivity.
Qed.

Lemma compose_is_spec_statement_witness :
  mode_of (Scenario.full_skip None)
  = mode_of (mkParams (Some ["t1"]) None (Some false) (Some true)
                      (Some "analyze"))
  /\ extra_modifiers_of (Scenario.full_skip None)
     = extra_modifiers_of (mkParams (Some ["t1"]) None (Some false)
                                    (Some true) (Some "analyze"))
  /\ Vacuum.compose (Scenario.full_skip None)
                        [Scenario.t1; Scenario.orders]
     = Vacuum.compose
         (mkParams (Some ["t1"]) None (Some false) (Some true)
                   (Some "analyze"))
         [Scenario.t1; Scenario.orders].
Proof.
  split; [reflexivity|split; [reflexivity|]].
  apply (proj2 (compose_is_spec_statement
                  (mkParams (Some ["t1"]) None (Some false) (Some true)
                            (Some "analyze"))
                  [Scenario.t1; Scenario.orders]));
    reflexivity.
Defined.

(** ** Full mode *)

(** C6: when [full] is set the Skip-Period Filter does nothing, whatever
    [skip_period] holds: every candidate row is selected, the loop cannot
    raise, it appends the name of every candidate (when targets were named)
    and leaves the object as it was. *)
Theorem full_mode_selects_every_candidate
        (now : clock) (tbl_list : option (list string))
        (rows : list Row) (tmp : list string) (self : VacuumObject) :
  Py.truthy_bool (full (params (module self))) = true ->
  (forall t row, candidate tbl_list row = true ->
                 selected_by_filter (params (module self)) t row = true)
  /\ selected_rows (params (module self)) now tbl_list rows
     = Ok (filter (candidate tbl_list) rows)
  /\ Vacuum.for_rows now tbl_list rows tmp self
     = (Ok (tmp ++ candidate_names tbl_list rows)%list, self).
Proof.
  intros Hfull.
  assert (Hf : filtering (params (module self)) = false)
    by (unfold filtering; rewrite Hfull; reflexivity).
  pose proof (selected_rows_unfiltered (params (module self)) tbl_list
                                       rows now Hf) as Hsel.
  repeat split.
  - intros t row _. unfold selected_by_filter, row_verdict. rewrite Hf.
    reflexivity.
  - exact Hsel.
  - rewrite (for_rows_ok tbl_list rows now tmp self _ Hsel). rewrite Hf.
    reflexivity.
Qed.

Lemma full_mode_selects_every_candidate_witness :
  Py.truthy_bool
    (full (params (module (Scenario.fresh
                             (Scenario.db Scenario.stale)
                             (Scenario.full_skip (Some ["t1"])) true))))
  = true
  /\ Vacuum.for_rows Scenario.clock (Some [Scenario.t1])
       [row_of_stat Scenario.stale; row_of_stat Scenario.recent;
        mkRow "public" "t2" [None; None; None; None]]
       []
       (Scenario.fresh (Scenario.db Scenario.stale)
                       (Scenario.full_skip (Some ["t1"])) true)
     = (Ok [Scenario.t1; Scenario.t1],
        Scenario.fresh (Scenario.db Scenario.stale)
                       (Scenario.full_skip (Some ["t1"])) true).
Proof.
  split; [reflexivity|].
  exact (proj2 (proj2 (full_mode_selects_every_candidate
    Scenario.clock (Some [Scenario.t1])
    [row_of_stat Scenario.stale; row_of_stat Scenario.recent;
     mkRow "public" "t2" [None; None; None; None]]
    []
    (Scenario.fresh (Scenario.db Scenario.stale)
                    (Scenario.full_skip (Some ["t1"])) true)
    eq_refl))).
Defined.

(** ** Check mode without a skip period *)

Lemma only_exists_no_exec (l : list Request) :
  forallb is_exists l = true -> existsb is_exec l = false.
Proof.
  induction l as [|r l IH]; intros Hall; [reflexivity|].
  cbn in Hall |- *. apply andb_prop in Hall as [Hr Hl].
  rewrite (IH Hl). destruct r; cbn in Hr |- *; congruence.
Qed.

(** C8: in check mode with no [skip_period] (unset, or not truthy), once the
    named targets pass the existence check, [do] returns with [changed]
    set whatever the statistics and the other options are; the composed
    statement is appended to [executed_queries], and the cursor is asked
    existence checks only: the statement is not executed. *)
Theorem check_mode_without_skip_period_changes
        (db : Store) (now : clock) (tbl_list : option (list string))
        (self : VacuumObject) :
  check_mode (module self) = true ->
  Py.truthy_int (skip_period (params (module self))) = false ->
  forallb (target_exists db) (targets_of tbl_list) = true ->
  exists self',
    Vacuum.do db now tbl_list self = (Ok tt, self')
    /\ changed self' = true
    /\ executed_queries self'
       = (executed_queries self
          ++ [Vacuum.compose
                (params (module self))
                (candidate_names tbl_list (stat_user_tables self))])%list
    /\ cursor_log self'
       = (cursor_log self ++ exists_requests (targets_of tbl_list))%list
    /\ existsb is_exec (exists_requests (targets_of tbl_list)) = false.
Proof.
  intros Hcheck Hsp Htargets.
  pose proof (check_targets_ok db tbl_list self Htargets) as Hc.
  set (s1 := asked (exists_requests (targets_of tbl_list)) self) in *.
  assert (Hf : filtering (params (module s1)) = false).
  { cbn. unfold filtering. rewrite Hsp. apply andb_false_r. }
  pose proof (selected_rows_unfiltered (params (module s1)) tbl_list
                (stat_user_tables s1) now Hf) as Hsel.
  rewrite (do_completes db now tbl_list self _ _ Hc Hsel).
  rewrite Hf. cbn [andb].
  rewrite finish_check by exact Hcheck.
  cbn [module s1 asked]. rewrite Hsp.
  eexists. split; [reflexivity|].
  cbn. repeat split.
  apply only_exists_no_exec, exists_requests_only.
Qed.

Lemma check_mode_without_skip_period_changes_witness :
  check_mode (module (Scenario.fresh (Scenario.db Scenario.recent)
                                     (Scenario.plain None) true)) = true
  /\ exists self',
      Vacuum.do (Scenario.db Scenario.recent) Scenario.clock None
        (Scenario.fresh (Scenario.db Scenario.recent)
                        (Scenario.plain None) true)
      = (Ok tt, self')
      /\ changed self' = true
      /\ executed_queries self' = ["VACUUM"]
      /\ cursor_log self' = [ReqConnect; ReqStat].
Proof.
  split; [reflexivity|].
  destruct (check_mode_without_skip_period_changes
              (Scenario.db Scenario.recent) Scenario.clock None
              (Scenario.fresh (Scenario.db Scenario.recent)
                              (Scenario.plain None) true)
              eq_refl eq_refl eq_refl)
    as (self' & Hdo & Hch & Hq & Hlog & _).
  exists self'. repeat split; assumption.
Defined.

(** ** Missing targets *)

(** C5 at a concrete run: the target names the relation [t] of the schema
    [my.schema], which is not in the catalog; the catalog holds [schema.t].
    [__check_table] splits the name at every dot and asks for [schema.t]:
    the check passes, nothing fails, and [do] executes the statement, here
    the bare [VACUUM] since the named relation has no statistics row. *)
Lemma dotted_schema_target_passes_check :
  in_catalog Scenario.dotted_db "my.schema" "t" = false
  /\ target_parts Scenario.dotted = Some ("schema", "t")
  /\ Vacuum.do Scenario.dotted_db Scenario.clock (Some [Scenario.dotted])
       (Scenario.fresh Scenario.dotted_db
                       (Scenario.plain (Some [Scenario.dotted])) false)
     = (Ok tt,
        mkVacuum (mkModule (Scenario.plain (Some [Scenario.dotted])) false)
                 [mkRow "schema" "t" [None; None; None; None]]
                 ["VACUUM"]
                 true
                 [ReqConnect; ReqStat; ReqExists "schema" "t";
                  ReqExec "VACUUM"]).
Proof.
  repeat split.
Qed.

(** ** Mutually exclusive options *)

(** C7: when [full] is supplied together with [analyze_only] or with
    [skip_period], [main] ends in a failure raised by the validation of the
    options, with a non-zero exit status, and the database has not been
    asked anything: not even the connection was opened. *)
Theorem full_with_exclusive_option_is_rejected
        (pg_quote_identifier : string -> string -> Res string)
        (db : Store) (now : clock) (p : Params) (check : bool) :
  full p <> None ->
  analyze_only p <> None \/ skip_period p <> None ->
  exists msg,
    main pg_quote_identifier db now p check = (ExitFail (FailJson msg), [])
    /\ exit_code (fst (main pg_quote_identifier db now p check)) <> 0.
Proof.
  intros Hfull Hother.
  unfold main, AnsibleModule, check_mutually_exclusive, supplied.
  destruct p as [t sp ao f aa]; cbn [tables skip_period analyze_only full
                                     additional_args] in *.
  destruct f as [f|]; [|contradiction].
  destruct ao as [ao|], sp as [sp|];
    try (destruct Hother as [H|H]; contradiction);
    destruct t, aa; cbn; eexists; (split; [reflexivity|discriminate]).
Qed.

Lemma full_with_exclusive_option_is_rejected_witness :
  full (Scenario.full_skip None) <> None
  /\ exists msg,
      main Scenario.quote_identifier (Scenario.db Scenario.recent)
           Scenario.clock (Scenario.full_skip None) false
      = (ExitFail (FailJson msg), []).
Proof.
  split; [discriminate|].
  destruct (full_with_exclusive_option_is_rejected
              Scenario.quote_identifier (Scenario.db Scenario.recent)
              Scenario.clock (Scenario.full_skip None) false
              ltac:(discriminate) ltac:(right; discriminate))
    as (msg & Hmain & _).
  exists msg. exact Hmain.
Defined.

(** ** Check mode with a skip period *)

(** C9 at a concrete run: check mode, vacuum mode, [skip_period] one hour,
    no target list, and [public.t1] vacuumed and autovacuumed half an hour
    ago.  By the filter rule of the specification the relation is skipped,
    so no relation requires action; [do] returns with [changed] set. *)
Lemma recent_relation_sets_changed :
  mode_of (Scenario.vacuum_skip None) = Spec.VACUUM
  /\ Spec.processed Spec.VACUUM (threshold Scenario.now 3600) Scenario.recent
     = false
  /\ changed (Scenario.fresh (Scenario.db Scenario.recent)
                             (Scenario.vacuum_skip None) true) = false
  /\ Vacuum.do (Scenario.db Scenario.recent) Scenario.clock None
       (Scenario.fresh (Scenario.db Scenario.recent)
                       (Scenario.vacuum_skip None) true)
     = (Ok tt,
        mkVacuum (mkModule (Scenario.vacuum_skip None) true)
                 [row_of_stat Scenario.recent]
                 ["VACUUM"]
                 true
                 [ReqConnect; ReqStat]).
Proof.
  repeat split.
Qed.

(** A [skip_period] of zero counts as unset: in check mode, without
    [full], on a database without user tables there is no candidate to
    select, and [changed] is set. *)
Lemma skip_period_zero_counts_as_unset :
  skip_period Scenario.zero_skip <> None
  /\ Py.truthy_bool (full Scenario.zero_skip) = false
  /\ check_mode
       (module (Scenario.fresh Scenario.empty_db Scenario.zero_skip true))
     = true
  /\ changed (Scenario.fresh Scenario.empty_db Scenario.zero_skip true)
     = false
  /\ stat_user_tables
       (Scenario.fresh Scenario.empty_db Scenario.zero_skip true) = []
  /\ fst (Vacuum.do Scenario.empty_db Scenario.clock None
            (Scenario.fresh Scenario.empty_db Scenario.zero_skip true))
     = Ok tt
  /\ changed
       (snd (Vacuum.do Scenario.empty_db Scenario.clock None
               (Scenario.fresh Scenario.empty_db Scenario.zero_skip true)))
     = true.
Proof.
  repeat split; try discriminate.
Qed.

(** ** Runs without an explicit target list *)

Lemma compose_nil p : Vacuum.compose p [] = bare_statement p.
Proof.
  unfold Vacuum.compose, bare_statement. cbn zeta.
  rewrite app_nil_r. reflexivity.
Qed.

(** The rows of the statistics query have the four timestamp columns 2..5:
    the columns 3 and 4 read in the vacuum branch exist. *)
Lemma row_verdict_vacuum_ok p now row :
  Py.truthy_bool (analyze_only p) = false ->
  skip_period_converts p = true ->
  List.length (stamps row) = 4%nat ->
  exists b, row_verdict p now row = Ok b.
Proof.
  intros Hmode Hconv Hlen. unfold row_verdict.
  destruct (filtering p); [|eexists; reflexivity].
  unfold Vacuum.recency_test, skip_tstamp_at.
  unfold skip_period_converts in Hconv.
  destruct (PyFloat.of_int (int_value (skip_period p))); [|discriminate].
  rewrite Hmode.
  destruct row as [s n st]. cbn in Hlen.
  destruct st as [|c2 [|c3 [|c4 [|c5 [|c6 st]]]]]; try discriminate.
  unfold seconds_or_zero, row_item. cbn.
  destruct c3, c4; eexists; reflexivity.
Qed.

Lemma selected_rows_total p tbl_list rows :
  forall now,
    (forall t row, In row rows -> exists b, row_verdict p t row = Ok b) ->
    exists sel, selected_rows p now tbl_list rows = Ok sel.
Proof.
  induction rows as [|r rest IH]; intros now Hall; [eexists; reflexivity|].
  destruct (IH (tick now)) as (sel & Hsel);
    [intros t row Hin; apply (Hall t); right; exact Hin|].
  destruct (Hall (now 0%nat) r (or_introl eq_refl)) as (b & Hb).
  cbn. rewrite Hsel, Hb.
  destruct (candidate tbl_list r), b; eexists; reflexivity.
Qed.

(** C4 at a concrete run: analyze-only mode, no target list, a snapshot with
    one relation.  Without [skip_period] the run returns and executes
    [ANALYZE]; with a skip period of 60 the loop raises [IndexError] at the
    row before any statement is composed: nothing is recorded or executed.
    The skip period changes more than [changed]. *)
Lemma skip_period_stops_analyze_without_targets :
  Vacuum.do (Scenario.db Scenario.never) Scenario.clock None
    (Scenario.fresh (Scenario.db Scenario.never)
                    (mkParams None None (Some true) None None) false)
  = (Ok tt,
     mkVacuum (mkModule (mkParams None None (Some true) None None) false)
              [row_of_stat Scenario.never]
              ["ANALYZE"]
              true
              [ReqConnect; ReqStat; ReqExec "ANALYZE"])
  /\ Vacuum.do (Scenario.db Scenario.never) Scenario.clock None
       (Scenario.fresh (Scenario.db Scenario.never)
                       (mkParams None (Some 60) (Some true) None None) false)
     = (Exn IndexError,
        mkVacuum (mkModule (mkParams None (Some 60) (Some true) None None)
                           false)
                 [row_of_stat Scenario.never]
                 []
                 false
                 [ReqConnect; ReqStat]).
Proof.
  split; reflexivity.
Qed.

(** ** The skip-period filter on the rows of the statistics query *)

(** In the vacuum branch the columns read are 3 and 4: [last_autovacuum]
    and [last_analyze].  The row is skipped when the threshold is past
    either of them. *)
Lemma recency_test_vacuum_columns p now (r : RelationStat) :
  Py.truthy_bool (analyze_only p) = false ->
  Vacuum.recency_test p now (row_of_stat r)
  = match skip_tstamp_at now (int_value (skip_period p)) with
    | Exn e => Exn e
    | Ok skip_tstamp =>
        Ok (PyFloat.gt skip_tstamp (float_or_zero (last_autovacuum r))
            || PyFloat.gt skip_tstamp (float_or_zero (last_analyze r)))
    end.
Proof.
  intros Hmode. unfold Vacuum.recency_test. rewrite Hmode.
  destruct (skip_tstamp_at now (int_value (skip_period p))); [|reflexivity].
  unfold seconds_or_zero, row_item, row_of_stat. cbn.
  destruct (last_autovacuum r), (last_analyze r); reflexivity.
Qed.

(** In the analyze branch the columns read are 5 and 6; the rows have the
    columns 0..5, so reading column 6 raises. *)
Lemma recency_test_analyze_raises p now (r : RelationStat) :
  Py.truthy_bool (analyze_only p) = true ->
  skip_period_converts p = true ->
  Vacuum.recency_test p now (row_of_stat r) = Exn IndexError.
Proof.
  intros Hmode Hconv. unfold Vacuum.recency_test, skip_tstamp_at.
  unfold skip_period_converts in Hconv.
  destruct (PyFloat.of_int (int_value (skip_period p))); [|discriminate].
  rewrite Hmode.
  unfold seconds_or_zero, row_item, row_of_stat. cbn.
  destruct (last_autoanalyze r); reflexivity.
Qed.

(** In analyze-only mode with the filter on, a run over a snapshot with a
    candidate row raises. *)
Lemma analyze_filter_raises p now tbl_list (r : RelationStat) rest :
  Py.truthy_bool (analyze_only p) = true ->
  skip_period_converts p = true ->
  filtering p = true ->
  candidate tbl_list (row_of_stat r) = true ->
  selected_rows p now tbl_list (row_of_stat r :: rest) = Exn IndexError.
Proof.
  intros Hmode Hconv Hf Hc. cbn. rewrite Hc. cbn [negb].
  unfold row_verdict. rewrite Hf.
  rewrite recency_test_analyze_raises by assumption. reflexivity.
Qed.

(** Outside check mode, when targets were named, exist, and the filter let
    no row through, [do] executes the statement without a target clause and
    sets [changed]. *)
Lemma empty_selection_runs_bare_statement db now tbl_list self :
  check_mode (module self) = false ->
  forallb (target_exists db) (targets_of tbl_list) = true ->
  selected_rows (params (module self)) now tbl_list (stat_user_tables self)
  = Ok [] ->
  rejects db (bare_statement (params (module self))) = None ->
  exists self',
    Vacuum.do db now tbl_list self = (Ok tt, self')
    /\ executed_queries self'
       = (executed_queries self
          ++ [bare_statement (params (module self))])%list
    /\ changed self' = true
    /\ cursor_log self'
       = (cursor_log self ++ exists_requests (targets_of tbl_list)
          ++ [ReqExec (bare_statement (params (module self)))])%list.
Proof.
  intros Hcheck Htargets Hsel Hacc.
  pose proof (check_targets_ok db tbl_list self Htargets) as Hc.
  rewrite (do_completes db now tbl_list self _ _ Hc Hsel).
  cbn [nonempty]. rewrite andb_false_r.
  unfold names_for.
  replace (if Py.truthy_list tbl_list then map qualified [] else [])
    with (@nil string) by (destruct (Py.truthy_list tbl_list); reflexivity).
  cbn [module asked]. rewrite compose_nil.
  rewrite finish_exec by exact Hcheck. rewrite Hacc.
  eexists. split; [reflexivity|]. cbn. rewrite <- app_assoc.
  repeat split.
Qed.

(** C1 at a concrete run: [public.t1] was last vacuumed, autovacuumed,
    analyzed and autoanalyzed two hours ago and [skip_period] is one hour,
    so every timestamp is strictly older than the threshold.  In vacuum mode
    the loop takes the [continue]: the relation is not selected, while the
    same relation processed half an hour ago is.  In analyze-only mode the
    loop raises [IndexError]. *)
Lemma stale_relation_is_not_selected :
  stamp_or_epoch (last_vacuum Scenario.stale) < threshold Scenario.now 3600
  /\ stamp_or_epoch (last_autovacuum Scenario.stale)
     < threshold Scenario.now 3600
  /\ stamp_or_epoch (last_analyze Scenario.stale)
     < threshold Scenario.now 3600
  /\ stamp_or_epoch (last_autoanalyze Scenario.stale)
     < threshold Scenario.now 3600
  /\ Vacuum.for_rows Scenario.clock (Some [Scenario.t1])
       [row_of_stat Scenario.stale] []
       (Scenario.fresh (Scenario.db Scenario.stale)
                       (Scenario.vacuum_skip (Some ["t1"])) true)
     = (Ok [],
        Scenario.fresh (Scenario.db Scenario.stale)
                       (Scenario.vacuum_skip (Some ["t1"])) true)
  /\ fst (Vacuum.for_rows Scenario.clock (Some [Scenario.t1])
            [row_of_stat Scenario.recent] []
            (Scenario.fresh (Scenario.db Scenario.recent)
                            (Scenario.vacuum_skip (Some ["t1"])) true))
     = Ok [Scenario.t1]
  /\ fst (Vacuum.for_rows Scenario.clock (Some [Scenario.t1])
            [row_of_stat Scenario.stale] []
            (Scenario.fresh (Scenario.db Scenario.stale)
                            (mkParams (Some ["t1"]) (Some 3600) (Some true)
                                      None None) true))
     = Exn IndexError.
Proof.
  repeat split.
Qed.

(** C2 at a concrete run: [public.t1] has never been analyzed or
    autoanalyzed, [skip_period] is 60 and the mode is analyze-only.  [do]
    raises [IndexError] at the row, with or without a target list; nothing
    is recorded or executed. *)
Lemma never_analyzed_relation_raises :
  last_analyze Scenario.never = None
  /\ last_autoanalyze Scenario.never = None
  /\ Vacuum.do (Scenario.db Scenario.never) Scenario.clock None
       (Scenario.fresh (Scenario.db Scenario.never)
                       (Scenario.analyze_skip None) false)
     = (Exn IndexError,
        Scenario.fresh (Scenario.db Scenario.never)
                       (Scenario.analyze_skip None) false)
  /\ fst (Vacuum.do (Scenario.db Scenario.never) Scenario.clock
            (Some [Scenario.t1])
            (Scenario.fresh (Scenario.db Scenario.never)
                            (Scenario.analyze_skip (Some ["t1"])) false))
     = Exn IndexError
  /\ executed_queries
       (snd (Vacuum.do (Scenario.db Scenario.never) Scenario.clock
               (Some [Scenario.t1])
               (Scenario.fresh (Scenario.db Scenario.never)
                               (Scenario.analyze_skip (Some ["t1"])) false)))
     = [].
Proof.
  repeat split.
Qed.

(** C3 at a concrete run: the target list names [public.t1] only and the
    filter skips it.  [do] still composes a statement, the bare [VACUUM],
    sends it to the database and sets [changed]. *)
Lemma all_targets_skipped_runs_bare_statement :
  selected_rows (Scenario.vacuum_skip (Some ["t1"])) Scenario.clock
                (Some [Scenario.t1]) [row_of_stat Scenario.stale]
  = Ok []
  /\ Vacuum.do (Scenario.db Scenario.stale) Scenario.clock
       (Some [Scenario.t1])
       (Scenario.fresh (Scenario.db Scenario.stale)
                       (Scenario.vacuum_skip (Some ["t1"])) false)
     = (Ok tt,
        mkVacuum (mkModule (Scenario.vacuum_skip (Some ["t1"])) false)
                 [row_of_stat Scenario.stale]
                 ["VACUUM"]
                 true
                 [ReqConnect; ReqStat; ReqExists "public" "t1";
                  ReqExec "VACUUM"]).
Proof.
  split; reflexivity.
Qed.

(** ** Examples *)

Example split_qualified : Py.split "." "public.t1" = ["public"; "t1"].
Proof. reflexivity. Qed.

Example split_no_dot : Py.split "." "orders" = ["orders"].
Proof. reflexivity. Qed.

Example strip_spaces : Py.strip "  my table " = "my table".
Proof. reflexivity. Qed.

(** The no-break space (code point 160) is whitespace for [str.strip()]. *)
Example strip_no_break_space :
  Py.strip (String (ascii_of_nat 160) "t1 ") = "t1".
Proof. reflexivity. Qed.

Example target_parts_quoted :
  target_parts Scenario.t1 = Some ("public", "t1").
Proof. reflexivity. Qed.

(** Scenario C of the specification through [main]: the target [orders]
    is not in the catalog. *)
Example main_missing_target :
  main Scenario.quote_identifier (Scenario.db Scenario.recent) Scenario.clock
       (Scenario.plain (Some ["orders"])) false
  = (ExitFail (FailJson "table orders in schema public does not exist"),
     [ReqConnect; ReqStat; ReqExists "public" "orders"]).
Proof. reflexivity. Qed.

(** Scenario E of the specification: full mode, modifiers, one target. *)
Example compose_full_analyze_target :
  Vacuum.compose (Scenario.full_skip None) [quoted "public" "mytable"]
  = ("VACUUM_FULL analyze " ++ quoted "public" "mytable").
Proof. reflexivity. Qed.

(** * Further properties of the module *)

(** ** Target names as [__check_table] reads them *)

Lemma split_nonempty c s : Py.split c s <> [].
Proof.
  destruct s as [|a r]; cbn; [discriminate|].
  destruct (Ascii.eqb a c); [discriminate|].
  destruct (Py.split c r); discriminate.
Qed.

(** The recency test is made on floats: a relation last processed exactly
    at [now - skip_period] is skipped when the rounded threshold comes out
    above the rounded timestamp. *)
Example rounding_at_the_threshold :
  threshold Scenario.late Scenario.long_skip = Scenario.on_threshold
  /\ Vacuum.recency_test
       (mkParams None (Some Scenario.long_skip) None None None)
       Scenario.late
       (mkRow "public" "t1"
              [None; Some Scenario.on_threshold; Some Scenario.on_threshold;
               None])
     = Ok true.
Proof. split; reflexivity. Qed.

Lemma split_no_sep c s : Py.contains c s = false -> Py.split c s = [s].
Proof.
  induction s as [|a r IH]; intros H; cbn in *; [reflexivity|].
  apply orb_false_iff in H as [Ha Hr]. rewrite Ha, (IH Hr). reflexivity.
Qed.

Lemma split_app_sep c x y :
  Py.contains c x = false ->
  Py.split c (x ++ String c y) = x :: Py.split c y.
Proof.
  induction x as [|a r IH]; intros H; cbn in *.
  - rewrite Ascii.eqb_refl. reflexivity.
  - apply orb_false_iff in H as [Ha Hr]. rewrite Ha, (IH Hr). reflexivity.
Qed.

Lemma split_two_pieces c s :
  Py.contains c s = true -> (2 <= List.length (Py.split c s))%nat.
Proof.
  induction s as [|a r IH]; intros H; cbn in *; [discriminate|].
  destruct (Ascii.eqb a c) eqn:Ha.
  - pose proof (split_nonempty c r) as Hne.
    destruct (Py.split c r); [contradiction|cbn; lia].
  - cbn in H. specialize (IH H).
    destruct (Py.split c r); cbn in *; lia.
Qed.

Lemma nth_from_end_some {A} (l : list A) k :
  (1 <= k <= List.length l)%nat -> exists x, Py.nth_from_end l k = Some x.
Proof.
  intros Hk. unfold Py.nth_from_end.
  destruct (nth_error (rev l) (k - 1)) as [x|] eqn:Hn; [eauto|].
  apply nth_error_None in Hn. rewrite length_rev in Hn. lia.
Qed.

(** A target name has a schema part exactly when it contains a dot. *)
Lemma has_schema_part_dot t : has_schema_part t = Py.contains "." t.
Proof.
  unfold has_schema_part, target_parts. cbn zeta.
  destruct (Py.contains "." t) eqn:Hdot.
  - pose proof (split_two_pieces "." t Hdot) as Hlen.
    destruct (nth_from_end_some (Py.split "." t) 2 ltac:(lia)) as (x2 & ->).
    destruct (nth_from_end_some (Py.split "." t) 1 ltac:(lia)) as (x1 & ->).
    reflexivity.
  - rewrite (split_no_sep "." t Hdot). reflexivity.
Qed.

(** X1: [__check_table] on a name without a dot raises [IndexError] before
    anything is sent to the database; on a name with a dot it sends exactly
    one existence query, for the last two dot-separated parts without their
    surrounding double quotes, and returns [True] or ends in [fail_json]
    according to the answer. *)
Theorem check_table_outcome (db : Store) (tblname : string)
        (self : VacuumObject) :
  (Py.contains "." tblname = false ->
   Vacuum.__check_table db tblname self = (Exn IndexError, self))
  /\ (Py.contains "." tblname = true ->
      exists table_schema table_name,
        target_parts tblname = Some (table_schema, table_name)
        /\ Vacuum.__check_table db tblname self
           = (if in_catalog db table_schema table_name then Ok true
              else Exn (FailJson ("table " ++ table_name ++ " in schema "
                                  ++ table_schema ++ " does not exist")),
              asked [ReqExists table_schema table_name] self)).
Proof.
  pose proof (has_schema_part_dot tblname) as Hdot.
  unfold has_schema_part in Hdot.
  rewrite check_table_eq. unfold not_found_message.
  split; intros H; rewrite H in Hdot.
  - destruct (target_parts tblname) as [[s n]|]; [discriminate|reflexivity].
  - destruct (target_parts tblname) as [[s n]|]; [|discriminate].
    exists s, n. split; [reflexivity|].
    destruct (in_catalog db s n); reflexivity.
Qed.

Lemma check_table_outcome_witness :
  Py.contains "." "orders" = false
  /\ Vacuum.__check_table (Scenario.db Scenario.recent) "orders"
       (Scenario.fresh (Scenario.db Scenario.recent) (Scenario.plain None)
                       false)
     = (Exn IndexError,
        Scenario.fresh (Scenario.db Scenario.recent) (Scenario.plain None)
                       false).
Proof.
  split; [reflexivity|].
  exact (proj1 (check_table_outcome
                  (Scenario.db Scenario.recent) "orders"
                  (Scenario.fresh (Scenario.db Scenario.recent)
                                  (Scenario.plain None) false))
               eq_refl).
Defined.

(** ** The names [do] builds are read back by [__check_table] *)

Lemma contains_app c x y :
  Py.contains c (x ++ y) = Py.contains c x || Py.contains c y.
Proof.
  induction x as [|a r IH]; cbn; [reflexivity|].
  rewrite IH, orb_assoc. reflexivity.
Qed.

Lemma rstrip_app_last p x a :
  p a = true -> Py.rstrip p (x ++ String a Py.empty) = Py.rstrip p x.
Proof.
  intros Hp. induction x as [|b r IH]; cbn.
  - rewrite Hp. reflexivity.
  - rewrite IH. reflexivity.
Qed.

Lemma lstrip_app p x y :
  Py.lstrip p (x ++ y)
  = if Py.is_empty (Py.lstrip p x) then Py.lstrip p y
    else Py.lstrip p x ++ y.
Proof.
  induction x as [|b r IH]; cbn; [reflexivity|].
  destruct (p b); [exact IH|reflexivity].
Qed.

(** Stripping ignores one more stripped character at each end. *)
Lemma strip_by_wrapped p a s :
  p a = true ->
  Py.strip_by p (String a (s ++ String a Py.empty)) = Py.strip_by p s.
Proof.
  intros Hp. unfold Py.strip_by. cbn [Py.lstrip]. rewrite Hp.
  rewrite lstrip_app. cbn [Py.lstrip]. rewrite Hp.
  destruct (Py.lstrip p s) as [|b r] eqn:Hl; cbn [Py.is_empty].
  - reflexivity.
  - apply rstrip_app_last. exact Hp.
Qed.

Lemma append_last_assoc x a y :
  x ++ String a y = (x ++ String a Py.empty) ++ y.
Proof.
  induction x as [|b r IH]; cbn; [reflexivity|].
  rewrite IH. reflexivity.
Qed.

Lemma quoted_as_two_parts schema_ table :
  quoted schema_ table
  = (String Py.dquote (schema_ ++ String Py.dquote Py.empty))
    ++ String "." (String Py.dquote (table ++ String Py.dquote Py.empty)).
Proof.
  unfold quoted.
  change ("." ++ String Py.dquote (table ++ String Py.dquote Py.empty))
    with (String "." (String Py.dquote (table ++ String Py.dquote Py.empty))).
  rewrite (append_last_assoc schema_ Py.dquote). reflexivity.
Qed.

(** X2: the name [do] composes for a row, the schema and the relation each
    in double quotes with a dot between, is read back by [__check_table] as
    that schema and that relation, provided neither contains a dot and
    neither begins or ends with a double quote. *)
Theorem target_parts_of_quoted (schema_ table : string) :
  Py.contains "." schema_ = false ->
  Py.contains "." table = false ->
  Py.strip_dquote schema_ = schema_ ->
  Py.strip_dquote table = table ->
  target_parts (quoted schema_ table) = Some (schema_, table).
Proof.
  intros Hs Ht Hqs Hqt.
  unfold target_parts. cbn zeta.
  rewrite quoted_as_two_parts.
  rewrite split_app_sep.
  2:{ cbn. rewrite contains_app, Hs. reflexivity. }
  rewrite split_no_sep.
  2:{ cbn. rewrite contains_app, Ht. reflexivity. }
  cbn [Py.nth_from_end rev app nth_error Nat.sub].
  unfold Py.strip_dquote in *.
  rewrite !strip_by_wrapped by apply Ascii.eqb_refl.
  rewrite Hqs, Hqt. reflexivity.
Qed.

Lemma target_parts_of_quoted_witness :
  Py.contains "." "my schema" = false
  /\ target_parts (quoted "my schema" "t 1") = Some ("my schema", "t 1").
Proof.
  split; [reflexivity|].
  apply target_parts_of_quoted; reflexivity.
Defined.

(** A name with a dot inside the relation is read as another relation: the
    check looks at the last two dot-separated parts only. *)
Example target_parts_dotted_relation :
  target_parts (quoted "public" "my.table") = Some ("my", "table").
Proof. reflexivity. Qed.

(** ** Every way a run of [do] can go *)

Lemma check_tables_ok_inv db l :
  forall self u s1,
    Vacuum.check_tables db l self = (Ok u, s1) ->
    forallb (target_exists db) l = true.
Proof.
  induction l as [|t rest IH]; intros self u s1 H; [reflexivity|].
  cbn in H |- *. unfold bind at 1 in H. rewrite check_table_eq in H.
  unfold target_exists at 1.
  destruct (target_parts t) as [[s n]|]; [|discriminate].
  destruct (in_catalog db s n); [|discriminate].
  exact (IH _ _ _ H).
Qed.




(** The rows a completed loop selected are the rows let through, each
    under the time read for it, order kept. *)
Lemma selected_rows_let_through p tbl_list rows :
  forall now sel,
    selected_rows p now tbl_list rows = Ok sel ->
    sel = rows_let_through p now tbl_list rows.
Proof.
  induction rows as [|r rest IH]; intros now sel H; cbn in H |- *.
  - injection H as <-. reflexivity.
  - unfold let_through at 1, selected_by_filter.
    destruct (candidate tbl_list r); cbn [negb andb app] in *;
      [|apply IH, H].
    destruct (row_verdict p (now 0%nat) r) as [[|]|e];
      [apply IH, H| |discriminate].
    destruct (selected_rows p (tick now) tbl_list rest) as [l|e] eqn:Hrest;
      [|discriminate].
    injection H as <-. rewrite (IH _ l Hrest). reflexivity.
Qed.

Lemma check_targets_ok_inv db tbl_list self u s1 :
  check_targets db tbl_list self = (Ok u, s1) ->
  forallb (target_exists db) (targets_of tbl_list) = true.
Proof.
  unfold check_targets, when.
  destruct tbl_list as [[|t rest]|]; cbn [Py.truthy_list targets_of];
    try reflexivity.
  apply check_tables_ok_inv.
Qed.


(** The object a returning run of [do] leaves. *)
Lemma do_return_state db now tbl_list self self' :
  Vacuum.do db now tbl_list self = (Ok tt, self') ->
  let p := params (module self) in
  let query :=
    Vacuum.compose p (names_for tbl_list
                        (rows_let_through p now tbl_list
                                          (stat_user_tables self))) in
  let s1 := asked (exists_requests (targets_of tbl_list)) self in
  forallb (target_exists db) (targets_of tbl_list) = true
  /\ self'
     = (if check_mode (module self)
        then recorded query
               (if negb (Py.truthy_int (skip_period p))
                   || (filtering p
                       && nonempty (rows_let_through p now tbl_list
                                                     (stat_user_tables self)))
                then mark_changed s1 else s1)
        else mark_changed (recorded query (asked [ReqExec query] s1))).
Proof.
  intros Hdo. cbn zeta.
  destruct (check_targets db tbl_list self) as [[[]|e] s1] eqn:Hc.
  2:{ rewrite (do_check_failed db now tbl_list self _ _ Hc) in Hdo.
      discriminate. }
  pose proof (check_targets_ok_inv db tbl_list self _ _ Hc) as Hall.
  pose proof (check_targets_ok db tbl_list self Hall) as Hc'.
  rewrite Hc' in Hc. injection Hc as <-.
  set (s1 := asked (exists_requests (targets_of tbl_list)) self) in *.
  destruct (selected_rows (params (module s1)) now tbl_list
                          (stat_user_tables s1)) as [sel|e] eqn:Hsel.
  2:{ destruct (do_loop_failed db now tbl_list self s1 e Hc' Hsel)
        as (s2 & Hdo' & _). rewrite Hdo' in Hdo. discriminate. }
  rewrite (do_completes db now tbl_list self s1 sel Hc' Hsel) in Hdo.
  pose proof (selected_rows_let_through _ _ _ _ _ Hsel) as ->.
  cbn [s1 module asked stat_user_tables] in *.
  split; [exact Hall|].
  destruct (check_mode (module self)) eqn:Hcheck.
  - rewrite finish_check in Hdo
      by (destruct (_ && _ && _); cbn; exact Hcheck).
    injection Hdo as <-. rewrite andb_true_r.
    destruct (filtering (params (module self))
              && nonempty (rows_let_through (params (module self)) now
                             tbl_list (stat_user_tables self)));
      cbn; destruct (Py.truthy_int _); reflexivity.
  - rewrite andb_false_r in Hdo. cbn [andb] in Hdo.
    rewrite finish_exec in Hdo by exact Hcheck.
    destruct (rejects db _); [discriminate|].
    injection Hdo as <-. reflexivity.
Qed.

Lemma do_return_log db now tbl_list self self' :
  Vacuum.do db now tbl_list self = (Ok tt, self') ->
  exists query,
    executed_queries self' = (executed_queries self ++ [query])%list
    /\ cursor_log self'
       = (cursor_log self ++ exists_requests (targets_of tbl_list)
          ++ (if check_mode (module self) then []
              else [ReqExec query]))%list.
Proof.
  intros Hdo.
  destruct (do_return_state db now tbl_list self self' Hdo) as (_ & ->).
  eexists.
  destruct (check_mode (module self)).
  - destruct (_ || _); cbn; rewrite app_nil_r; split; reflexivity.
  - cbn. rewrite <- app_assoc. split; reflexivity.
Qed.





(** X5: [do] returns whenever the named targets pass the existence check,
    the statistics rows have the six columns of the query, the analyze-only
    filter is not in play (vacuum or full mode, or no skip period),
    [skip_period] converts to a float and, outside check mode, the database
    accepts the statement. *)
Theorem do_returns
        (db : Store) (now : clock) (tbl_list : option (list string))
        (self : VacuumObject) :
  forallb (target_exists db) (targets_of tbl_list) = true ->
  Py.truthy_bool (analyze_only (params (module self)))
  && filtering (params (module self)) = false ->
  skip_period_converts (params (module self)) = true ->
  (forall row, In row (stat_user_tables self) ->
               List.length (stamps row) = 4%nat) ->
  check_mode (module self) = true
  \/ rejects db
       (Vacuum.compose
          (params (module self))
          (names_for tbl_list
             (rows_let_through (params (module self)) now tbl_list
                               (stat_user_tables self)))) = None ->
  exists self', Vacuum.do db now tbl_list self = (Ok tt, self').
Proof.
  intros Hall Hmode Hconv Hrows Hexec.
  pose proof (check_targets_ok db tbl_list self Hall) as Hc.
  destruct (selected_rows_total (params (module self)) tbl_list
              (stat_user_tables self) now) as (sel & Hsel).
  { intros t row Hin. apply andb_false_iff in Hmode as [Ha|Hf].
    - apply row_verdict_vacuum_ok;
        [exact Ha|exact Hconv|apply Hrows; exact Hin].
    - unfold row_verdict. rewrite Hf. eexists. reflexivity. }
  rewrite (do_completes db now tbl_list self _ sel Hc Hsel).
  pose proof (selected_rows_let_through _ _ _ _ _ Hsel) as ->.
  cbn [module asked stat_user_tables].
  destruct (check_mode (module self)) eqn:Hcheck.
  - rewrite finish_check
      by (destruct (_ && _ && _); cbn; exact Hcheck).
    eexists. reflexivity.
  - destruct Hexec as [Habs|Hacc]; [discriminate|].
    rewrite andb_false_r. cbn [andb].
    rewrite finish_exec by exact Hcheck.
    cbn [module asked]. rewrite Hacc. eexists. reflexivity.
Qed.

Lemma do_returns_witness :
  forallb (target_exists (Scenario.db Scenario.recent))
          (targets_of (Some [Scenario.t1])) = true
  /\ skip_period_converts (Scenario.vacuum_skip (Some ["t1"])) = true
  /\ exists self',
      Vacuum.do (Scenario.db Scenario.recent) Scenario.clock
        (Some [Scenario.t1])
        (Scenario.fresh (Scenario.db Scenario.recent)
                        (Scenario.vacuum_skip (Some ["t1"])) false)
      = (Ok tt, self').
Proof.
  split; [reflexivity|]. split; [reflexivity|].
  apply do_returns.
  - reflexivity.
  - reflexivity.
  - reflexivity.
  - intros row [<-|[]]. reflexivity.
  - right. reflexivity.
Defined.

(** ** What reaches the database *)

Lemma executions_app l1 l2 :
  executions (l1 ++ l2) = (executions l1 ++ executions l2)%list.
Proof. apply filter_app. Qed.

Lemma executions_of_checks reqs :
  forallb is_exists reqs = true -> executions reqs = [].
Proof.
  induction reqs as [|r l IH]; intros H; [reflexivity|].
  cbn in H |- *. apply andb_prop in H as [Hr Hl].
  destruct r; cbn in Hr |- *; try discriminate. exact (IH Hl).
Qed.

(** Whatever the outcome, [do] sends existence checks and then at most one
    statement, and none in check mode. *)
Lemma do_log_shape db now tbl_list self r self' :
  Vacuum.do db now tbl_list self = (r, self') ->
  exists reqs tail,
    cursor_log self' = (cursor_log self ++ reqs ++ tail)%list
    /\ forallb is_exists reqs = true
    /\ (tail = []
        \/ check_mode (module self) = false
           /\ exists query, tail = [ReqExec query]).
Proof.
  intros Hdo. destruct r as [[]|e].
  - destruct (do_return_state db now tbl_list self self' Hdo) as (_ & ->).
    exists (exists_requests (targets_of tbl_list)).
    destruct (check_mode (module self)).
    + exists []. destruct (_ || _); cbn; rewrite !app_nil_r;
        repeat split; try apply exists_requests_only; left; reflexivity.
    + eexists [ReqExec _]. cbn. rewrite <- app_assoc.
      repeat split; [apply exists_requests_only|].
      right. split; [reflexivity|]. eexists. reflexivity.
  - destruct (check_targets db tbl_list self) as [[[]|e0] s1] eqn:Hc.
    2:{ rewrite (do_check_failed db now tbl_list self _ _ Hc) in Hdo.
        injection Hdo as <- <-.
        destruct (check_targets_frame db tbl_list self _ _ Hc)
          as (reqs & -> & Hr).
        exists reqs, []. cbn. rewrite app_nil_r.
        repeat split; [exact Hr|left; reflexivity]. }
    pose proof (check_targets_ok_inv db tbl_list self _ _ Hc) as Hall.
    pose proof (check_targets_ok db tbl_list self Hall) as Hc'.
    rewrite Hc' in Hc. injection Hc as <-.
    set (s1 := asked (exists_requests (targets_of tbl_list)) self) in *.
    destruct (selected_rows (params (module s1)) now tbl_list
                            (stat_user_tables s1)) as [sel|e0] eqn:Hsel.
    2:{ destruct (do_loop_failed db now tbl_list self s1 e0 Hc' Hsel)
          as (s2 & Hdo' & _ & Hl). rewrite Hdo' in Hdo.
        injection Hdo as <- <-.
        exists (exists_requests (targets_of tbl_list)), [].
        rewrite Hl. cbn. rewrite app_nil_r.
        repeat split; [apply exists_requests_only|left; reflexivity]. }
    rewrite (do_completes db now tbl_list self s1 sel Hc' Hsel) in Hdo.
    cbn [s1 module asked stat_user_tables] in *.
    destruct (check_mode (module self)) eqn:Hcheck.
    + rewrite finish_check in Hdo
        by (destruct (_ && _ && _); cbn; exact Hcheck).
      discriminate.
    + rewrite andb_false_r in Hdo. cbn [andb] in Hdo.
      rewrite finish_exec in Hdo by exact Hcheck.
      destruct (rejects db _) as [err|]; [|discriminate].
      injection Hdo as <- <-.
      eexists (exists_requests (targets_of tbl_list)), [ReqExec _].
      cbn. rewrite <- app_assoc.
      repeat split; [apply exists_requests_only|].
      right. split; [reflexivity|]. eexists. reflexivity.
Qed.

Lemma main_eq quote db now p check :
  main quote db now p check =
  match AnsibleModule exclusive_groups p check with
  | Exn e => (ExitFail e, [])
  | Ok m =>
      match tbl_list_of quote (params m) with
      | Exn e => (ExitFail e, [ReqConnect; ReqStat])
      | Ok tbl_list =>
          match Vacuum.do db now tbl_list (connected db m) with
          | (Exn e, vacuum') => (ExitFail e, cursor_log vacuum')
          | (Ok _, vacuum') =>
              (ExitJson (changed vacuum') (executed_queries vacuum'),
               cursor_log vacuum')
          end
      end
  end.
Proof.
  unfold main, exclusive_groups, tbl_list_of, targets_of.
  destruct (AnsibleModule _ p check) as [m|e]; [|reflexivity].
  cbn [Vacuum.__init__ Vacuum.get_user_tables_stat].
  unfold exec_sql_stat, bind, send, ret, connected. cbn.
  destruct (Py.truthy_list (tables (params m))); [|reflexivity].
  destruct (transform_tables_representation quote _); reflexivity.
Qed.

Lemma AnsibleModule_ok groups p check m :
  AnsibleModule groups p check = Ok m -> m = mkModule p check.
Proof.
  unfold AnsibleModule.
  destruct (check_mutually_exclusive groups p); [|discriminate].
  intros H. injection H as <-. reflexivity.
Qed.

(** X6: in check mode [main] never has a statement executed, whatever the
    options, the database and the way the run ends. *)
Theorem main_check_mode_executes_nothing
        (pg_quote_identifier : string -> string -> Res string)
        (db : Store) (now : clock) (p : Params) :
  executions (snd (main pg_quote_identifier db now p true)) = [].
Proof.
  rewrite main_eq.
  destruct (AnsibleModule exclusive_groups p true) as [m|e] eqn:Hm;
    [|reflexivity].
  apply AnsibleModule_ok in Hm. subst m.
  destruct (tbl_list_of pg_quote_identifier _) as [tbl_list|e];
    [|reflexivity].
  destruct (Vacuum.do db now tbl_list (connected db (mkModule p true)))
    as [r self'] eqn:Hdo.
  destruct (do_log_shape db now tbl_list _ r self' Hdo)
    as (reqs & tail & Hlog & Hreqs & Htail).
  assert (Hex : executions (cursor_log self') = []).
  { rewrite Hlog, !executions_app, (executions_of_checks reqs Hreqs).
    destruct Htail as [->|[Habs _]]; [reflexivity|discriminate]. }
  destruct r as [[]|e]; exact Hex.
Qed.

(** X7: [main] has at most one statement executed.  When it exits through
    [exit_json], [queries] holds exactly one statement, and outside check
    mode that statement is the one that was executed. *)
Theorem main_one_statement
        (pg_quote_identifier : string -> string -> Res string)
        (db : Store) (now : clock) (p : Params) (check : bool) :
  match main pg_quote_identifier db now p check with
  | (ExitJson _ queries, log) =>
      exists query,
        queries = [query]
        /\ executions log = if check then [] else [ReqExec query]
  | (ExitFail _, log) => (List.length (executions log) <= 1)%nat
  end.
Proof.
  rewrite main_eq.
  destruct (AnsibleModule exclusive_groups p check) as [m|e] eqn:Hm;
    [|cbn; lia].
  apply AnsibleModule_ok in Hm. subst m.
  destruct (tbl_list_of pg_quote_identifier _) as [tbl_list|e];
    [|cbn; lia].
  destruct (Vacuum.do db now tbl_list (connected db (mkModule p check)))
    as [[[]|e] self'] eqn:Hdo.
  - destruct (do_return_log db now tbl_list _ self' Hdo)
      as (query & Hq & Hlog).
    exists query. split; [exact Hq|].
    rewrite Hlog. cbn [connected cursor_log module check_mode].
    rewrite !executions_app.
    rewrite (executions_of_checks _ (exists_requests_only _)).
    destruct check; reflexivity.
  - destruct (do_log_shape db now tbl_list _ _ self' Hdo)
      as (reqs & tail & Hlog & Hreqs & Htail).
    rewrite Hlog, !executions_app, (executions_of_checks reqs Hreqs).
    destruct Htail as [->|(_ & q & ->)]; cbn; lia.
Qed.

(** ** Named targets without a statistics row *)

Lemma selected_rows_no_candidates p tbl_list rows :
  forall now,
    (forall row, In row rows -> candidate tbl_list row = false) ->
    selected_rows p now tbl_list rows = Ok [].
Proof.
  induction rows as [|r rest IH]; intros now Hall; [reflexivity|].
  cbn. rewrite (Hall r (or_introl eq_refl)). cbn [negb].
  apply IH. intros row Hin. apply Hall. right. exact Hin.
Qed.

(** X9: when targets are named and exist in the catalog but none of them
    has a row in the statistics snapshot, [do] outside check mode executes
    the statement without a target clause, for any mode and skip period. *)
Theorem targets_without_statistics_run_bare
        (db : Store) (now : clock) (tbl_list : list string)
        (self : VacuumObject) :
  tbl_list <> [] ->
  check_mode (module self) = false ->
  forallb (target_exists db) tbl_list = true ->
  (forall row, In row (stat_user_tables self) ->
               Py.mem (qualified row) tbl_list = false) ->
  rejects db (bare_statement (params (module self))) = None ->
  exists self',
    Vacuum.do db now (Some tbl_list) self = (Ok tt, self')
    /\ executed_queries self'
       = (executed_queries self
          ++ [bare_statement (params (module self))])%list
    /\ cursor_log self'
       = (cursor_log self ++ exists_requests tbl_list
          ++ [ReqExec (bare_statement (params (module self)))])%list.
Proof.
  intros Hne Hcheck Hall Hrows Hacc.
  destruct (empty_selection_runs_bare_statement
              db now (Some tbl_list) self Hcheck Hall)
    as (self' & Hdo & Hq & _ & Hlog).
  - apply selected_rows_no_candidates. intros row Hin.
    unfold candidate. cbn [in_tbl_list]. rewrite (Hrows row Hin).
    destruct tbl_list; [contradiction|reflexivity].
  - exact Hacc.
  - exists self'. repeat split; assumption.
Qed.

Lemma targets_without_statistics_run_bare_witness :
  [Scenario.t1] <> []
  /\ exists self',
      Vacuum.do (mkStore [("public", "t1")] [] (fun _ => None)) Scenario.clock
        (Some [Scenario.t1])
        (connected (mkStore [("public", "t1")] [] (fun _ => None))
                   (mkModule (Scenario.plain (Some ["t1"])) false))
      = (Ok tt, self')
      /\ executed_queries self' = ["VACUUM"].
Proof.
  split; [discriminate|].
  destruct (targets_without_statistics_run_bare
              (mkStore [("public", "t1")] [] (fun _ => None)) Scenario.clock
              [Scenario.t1]
              (connected (mkStore [("public", "t1")] [] (fun _ => None))
                         (mkModule (Scenario.plain (Some ["t1"])) false)))
    as (self' & Hdo & Hq & _).
  - discriminate.
  - reflexivity.
  - reflexivity.
  - intros row [].
  - reflexivity.
  - exists self'. split; [exact Hdo|exact Hq].
Defined.

(** ** [transform_tables_representation] *)

Lemma contains_lstrip c p s :
  p c = false -> Py.contains c (Py.lstrip p s) = Py.contains c s.
Proof.
  intros Hp. induction s as [|a r IH]; cbn; [reflexivity|].
  destruct (p a) eqn:Ha; [|reflexivity].
  rewrite IH. destruct (Ascii.eqb a c) eqn:Hac; [|reflexivity].
  apply Ascii.eqb_eq in Hac. congruence.
Qed.

Lemma contains_rstrip c p s :
  p c = false -> Py.contains c (Py.rstrip p s) = Py.contains c s.
Proof.
  intros Hp. induction s as [|a r IH]; cbn; [reflexivity|].
  destruct (p a && Py.is_empty (Py.rstrip p r)) eqn:Hcut.
  - apply andb_prop in Hcut as [Ha He].
    destruct (Py.rstrip p r); [|discriminate]. cbn in IH. rewrite <- IH.
    destruct (Ascii.eqb a c) eqn:Hac; [|reflexivity].
    apply Ascii.eqb_eq in Hac. congruence.
  - cbn. rewrite IH. reflexivity.
Qed.

Lemma contains_dot_strip s :
  Py.contains "." (Py.strip s) = Py.contains "." s.
Proof.
  unfold Py.strip, Py.strip_by.
  rewrite contains_rstrip, contains_lstrip; reflexivity.
Qed.

Lemma name_to_quote_qualified table :
  Py.contains "." (name_to_quote table) = true.
Proof.
  unfold name_to_quote.
  destruct (Py.contains "." table) eqn:Hdot; cbn [negb].
  - rewrite contains_dot_strip. exact Hdot.
  - rewrite contains_app. reflexivity.
Qed.

(** X10: [transform_tables_representation] keeps the length and the order
    of the list: each result is what [pg_quote_identifier] answers, as a
    table, for the raw name stripped of surrounding whitespace and prefixed
    with [public.] when it has no dot, so every name handed to it has a
    schema part.  It succeeds exactly when every such call does. *)
Theorem transform_tables_elementwise
        (pg_quote_identifier : string -> string -> Res string)
        (tbl_list : list string) :
  (forall out,
      transform_tables_representation pg_quote_identifier tbl_list = Ok out ->
      Forall2 (fun table q =>
                 Py.contains "." (name_to_quote table) = true
                 /\ pg_quote_identifier (name_to_quote table) "table" = Ok q)
              tbl_list out)
  /\ ((forall table, In table tbl_list ->
         exists q, pg_quote_identifier (name_to_quote table) "table" = Ok q)
      -> exists out,
          transform_tables_representation pg_quote_identifier tbl_list
          = Ok out).
Proof.
  assert (Hstep : forall table,
             (if negb (Py.contains "." table)
              then pg_quote_identifier ("public." ++ Py.strip table) "table"
              else pg_quote_identifier (Py.strip table) "table")
             = pg_quote_identifier (name_to_quote table) "table").
  { intros table. unfold name_to_quote.
    destruct (negb (Py.contains "." table)); reflexivity. }
  split.
  - induction tbl_list as [|table rest IH]; intros out H; cbn in H.
    + injection H as <-. constructor.
    + rewrite Hstep in H.
      destruct (pg_quote_identifier (name_to_quote table) "table")
        as [q|e] eqn:Hq; [|discriminate].
      destruct (transform_tables_representation pg_quote_identifier rest)
        as [rest'|e]; [|discriminate].
      injection H as <-. constructor.
      * split; [apply name_to_quote_qualified|exact Hq].
      * apply IH. reflexivity.
  - induction tbl_list as [|table rest IH]; intros Hall; cbn.
    + eexists. reflexivity.
    + rewrite Hstep.
      destruct (Hall table (or_introl eq_refl)) as (q & ->).
      destruct IH as (rest' & ->);
        [intros t Hin; apply Hall; right; exact Hin|].
      eexists. reflexivity.
Qed.

Lemma transform_tables_elementwise_witness :
  transform_tables_representation Scenario.quote_identifier
    [" t1 "; "sales.orders"]
  = Ok [quoted "public" "t1"; quoted "sales" "orders"]
  /\ Forall2 (fun table q =>
                Py.contains "." (name_to_quote table) = true
                /\ Scenario.quote_identifier (name_to_quote table) "table"
                   = Ok q)
             [" t1 "; "sales.orders"]
             [quoted "public" "t1"; quoted "sales" "orders"].
Proof.
  split; [reflexivity|].
  exact (proj1 (transform_tables_elementwise
                  Scenario.quote_identifier [" t1 "; "sales.orders"])
               _ eq_refl).
Defined.

(** ** The order of effects in [main] *)

Lemma validation_passes_without_full p check :
  full p = None ->
  AnsibleModule exclusive_groups p check = Ok (mkModule p check).
Proof.
  intros Hfull. destruct p as [t sp ao f aa]. cbn in Hfull. subst f.
  unfold AnsibleModule, check_mutually_exclusive, exclusive_groups, supplied.
  destruct t, sp, ao, aa; reflexivity.
Qed.

(** X11: when [full] is not supplied and
    [transform_tables_representation] raises on the given tables (that is,
    [pg_quote_identifier] refuses one of them), [main] fails with that
    exception after the connection was opened and the statistics were
    fetched, and before any existence check or statement. *)
Theorem main_bad_identifier_fails_after_statistics
        (pg_quote_identifier : string -> string -> Res string)
        (db : Store) (now : clock) (p : Params) (check : bool)
        (tbl : list string) (e : Exception) :
  full p = None ->
  tables p = Some tbl ->
  transform_tables_representation pg_quote_identifier tbl = Exn e ->
  main pg_quote_identifier db now p check
  = (ExitFail e, [ReqConnect; ReqStat]).
Proof.
  intros Hfull Htables Htr.
  rewrite main_eq, (validation_passes_without_full p check Hfull).
  unfold tbl_list_of. cbn [params]. rewrite Htables. cbn [targets_of].
  destruct tbl as [|t0 rest]; [discriminate|]. cbn [Py.truthy_list].
  rewrite Htr. reflexivity.
Qed.

Lemma main_bad_identifier_fails_after_statistics_witness :
  full (Scenario.plain (Some ["t1"])) = None
  /\ main Scenario.refuse_identifier (Scenario.db Scenario.recent)
          Scenario.clock (Scenario.plain (Some ["t1"])) false
     = (ExitFail (FailJson "cannot quote public.t1"),
        [ReqConnect; ReqStat]).
Proof.
  split; [reflexivity|].
  apply (main_bad_identifier_fails_after_statistics
           Scenario.refuse_identifier (Scenario.db Scenario.recent)
           Scenario.clock (Scenario.plain (Some ["t1"])) false ["t1"]);
    reflexivity.
Defined.

(** ** [changed] in check mode *)

(** X12: in check mode a run of [do] that returns leaves [changed] set
    exactly when it was set before, or [skip_period] is not truthy, or the
    filter is on and lets a row of the snapshot through.  In particular
    with [full] and a skip period together nothing sets it. *)
Theorem check_mode_changed_exactly
        (db : Store) (now : clock) (tbl_list : option (list string))
        (self self' : VacuumObject) :
  check_mode (module self) = true ->
  Vacuum.do db now tbl_list self = (Ok tt, self') ->
  changed self'
  = changed self
    || negb (Py.truthy_int (skip_period (params (module self))))
    || (filtering (params (module self))
        && nonempty (rows_let_through (params (module self)) now tbl_list
                                      (stat_user_tables self))).
Proof.
  intros Hcheck Hdo.
  destruct (do_return_state db now tbl_list self self' Hdo) as (_ & ->).
  rewrite Hcheck. rewrite <- orb_assoc.
  destruct (_ || _); cbn; [apply eq_sym, orb_true_r|apply eq_sym, orb_false_r].
Qed.

Lemma check_mode_changed_exactly_witness :
  check_mode (module (Scenario.fresh (Scenario.db Scenario.recent)
                                     (Scenario.full_skip None) true)) = true
  /\ changed
       (snd (Vacuum.do (Scenario.db Scenario.recent) Scenario.clock None
               (Scenario.fresh (Scenario.db Scenario.recent)
                               (Scenario.full_skip None) true)))
     = false.
Proof.
  split; [reflexivity|].
  exact (check_mode_changed_exactly
           (Scenario.db Scenario.recent) Scenario.clock None
           (Scenario.fresh (Scenario.db Scenario.recent)
                           (Scenario.full_skip None) true)
           _ eq_refl eq_refl).
Defined.

(** ** Missing targets with plain names *)




(** ** A skip period too large for a float *)

Lemma selected_rows_overflow p tbl_list rows :
  forall now,
    filtering p = true ->
    skip_period_converts p = false ->
    existsb (candidate tbl_list) rows = true ->
    selected_rows p now tbl_list rows = Exn OverflowError.
Proof.
  induction rows as [|r rest IH]; intros now Hf Hconv Hex; cbn in Hex;
    [discriminate|].
  cbn. destruct (candidate tbl_list r); cbn [negb].
  - unfold row_verdict. rewrite Hf.
    unfold Vacuum.recency_test, skip_tstamp_at.
    unfold skip_period_converts in Hconv.
    destruct (PyFloat.of_int (int_value (skip_period p)));
      [discriminate|reflexivity].
  - apply IH; assumption.
Qed.

(** X14: when the filter is on (no [full], a truthy [skip_period]) and
    [skip_period] is too large to convert to a float, a run of [do] whose
    targets pass the existence check and whose snapshot has a candidate row
    raises [OverflowError] at the first candidate row: nothing is recorded
    or executed. *)
Theorem skip_period_overflow_raises
        (db : Store) (now : clock) (tbl_list : option (list string))
        (self : VacuumObject) :
  filtering (params (module self)) = true ->
  skip_period_converts (params (module self)) = false ->
  forallb (target_exists db) (targets_of tbl_list) = true ->
  existsb (candidate tbl_list) (stat_user_tables self) = true ->
  exists self',
    Vacuum.do db now tbl_list self = (Exn OverflowError, self')
    /\ executed_queries self' = executed_queries self
    /\ cursor_log self'
       = (cursor_log self ++ exists_requests (targets_of tbl_list))%list.
Proof.
  intros Hf Hconv Hall Hex.
  pose proof (check_targets_ok db tbl_list self Hall) as Hc.
  destruct (do_loop_failed db now tbl_list self _ OverflowError Hc)
    as (s2 & Hdo & Hq & Hl).
  - apply selected_rows_overflow; assumption.
  - exists s2. repeat split; assumption.
Qed.

Lemma skip_period_overflow_raises_witness :
  skip_period_converts Scenario.huge_skip = false
  /\ exists self',
      Vacuum.do (Scenario.db Scenario.recent) Scenario.clock None
        (Scenario.fresh (Scenario.db Scenario.recent) Scenario.huge_skip
                        true)
      = (Exn OverflowError, self')
      /\ executed_queries self' = [].
Proof.
  split; [vm_compute; reflexivity|].
  destruct (skip_period_overflow_raises
              (Scenario.db Scenario.recent) Scenario.clock None
              (Scenario.fresh (Scenario.db Scenario.recent)
                              Scenario.huge_skip true))
    as (self' & Hdo & Hq & _).
  - reflexivity.
  - vm_compute. reflexivity.
  - reflexivity.
  - reflexivity.
  - exists self'. split; [exact Hdo|exact Hq].
Defined.
